(** * Donor registration backend (server.js): model and properties

    The Express application of [server.js] has two routes: the health check
    [GET /api] and the donor registration [POST /api/register].  This file
    embeds both handlers, the JavaScript values they inspect, the
    [JSON.stringify] call used to store the pledged organs, and the
    try/catch/finally discipline around the pooled connection. *)

From Stdlib Require Import ZArith List Bool String Ascii Lia DecimalString.
Import ListNotations.
Local Open Scope Z_scope.
Set Warnings "-register-all".

(** ** JavaScript strings

    A JavaScript string is a sequence of UTF-16 code units; a code unit is
    kept as an integer in [0, 65536). *)

Module Js.

Definition jsstring := list Z.

Definition is_code_unit (c : Z) : bool := (0 <=? c) && (c <? 65536).

Definition well_formed (s : jsstring) : bool := forallb is_code_unit s.

(** Source literals are ASCII; [lit] gives their code units. *)
Definition lit (s : string) : jsstring :=
  map (fun a => Z.of_N (N_of_ascii a)) (list_ascii_of_string s).
Arguments lit : simpl never.

Fixpoint str_eqb (s t : jsstring) : bool :=
  match s, t with
  | [], [] => true
  | a :: s', b :: t' => (a =? b) && str_eqb s' t'
  | _, _ => false
  end.

(** ** JavaScript values, as they come out of the JSON body parser.

    Numbers are kept as integers; objects keep their properties in
    insertion order. *)
Inductive value : Type :=
| VUndefined
| VNull
| VBool (b : bool)
| VNum (n : Z)
| VStr (s : jsstring)
| VArr (items : list value)
| VObj (props : list (jsstring * value)).

Definition object := list (jsstring * value).

(** Property read [o.k]: [undefined] when the property is absent. *)
Fixpoint get (o : object) (k : jsstring) : value :=
  match o with
  | [] => VUndefined
  | (k', v) :: rest => if str_eqb k' k then v else get rest k
  end.

(** ToBoolean: the operand of [!x], [x || y], [if (x)]. *)
Definition truthy (v : value) : bool :=
  match v with
  | VUndefined | VNull => false
  | VBool b => b
  | VNum n => negb (n =? 0)
  | VStr s => match s with [] => false | _ => true end
  | VArr _ | VObj _ => true
  end.

(** [v === 'literal']: strict equality against a string. *)
Definition strict_eq_str (v : value) (s : jsstring) : bool :=
  match v with
  | VStr t => str_eqb t s
  | _ => false
  end.

(** Number::toString for the integers of the model: the decimal digits,
    as JavaScript prints an integer below 10^21 that a double holds. *)
Definition number_to_string (n : Z) : jsstring :=
  lit (NilZero.string_of_int (Z.to_int n)).

End Js.

(** ** JSON.stringify (ECMA-262, SerializeJSONProperty / QuoteJSONString) *)

Module JSON.
Import Js.

Definition hex_digit (d : Z) : Z := if d <? 10 then 48 + d else 87 + d.

(** UnicodeEscape: backslash, [u] and four lowercase hexadecimal digits. *)
Definition unicode_escape (c : Z) : jsstring :=
  [92; 117; hex_digit (c / 4096); hex_digit ((c / 256) mod 16);
   hex_digit ((c / 16) mod 16); hex_digit (c mod 16)].

Definition is_lead (c : Z) : bool := (55296 <=? c) && (c <? 56320).
Definition is_trail (c : Z) : bool := (56320 <=? c) && (c <? 57344).

(** One code unit that is not half of a surrogate pair. *)
Definition quote_unit (c : Z) : jsstring :=
  if c =? 8 then [92; 98]
  else if c =? 9 then [92; 116]
  else if c =? 10 then [92; 110]
  else if c =? 12 then [92; 102]
  else if c =? 13 then [92; 114]
  else if c =? 34 then [92; 34]
  else if c =? 92 then [92; 92]
  else if (c <? 32) || is_lead c || is_trail c then unicode_escape c
  else [c].

(** The characters between the quotes: a lead surrogate followed by a trail
    surrogate is one code point and is copied; a lone surrogate is escaped. *)
Fixpoint quote_units (s : jsstring) : jsstring :=
  match s with
  | [] => []
  | c :: rest =>
      match rest with
      | d :: rest' =>
          if is_lead c && is_trail d then c :: d :: quote_units rest'
          else quote_unit c ++ quote_units rest
      | [] => quote_unit c
      end
  end.

Definition quote (s : jsstring) : jsstring := 34 :: quote_units s ++ [34].

Fixpoint join (sep : jsstring) (parts : list jsstring) : jsstring :=
  match parts with
  | [] => []
  | [p] => p
  | p :: ps => p ++ sep ++ join sep ps
  end.

(** SerializeJSONProperty without gap: [None] is the [undefined] result. *)
Fixpoint serialize (v : value) : option jsstring :=
  match v with
  | VUndefined => None
  | VNull => Some (lit "null")
  | VBool true => Some (lit "true")
  | VBool false => Some (lit "false")
  | VNum n => Some (number_to_string n)
  | VStr s => Some (quote s)
  | VArr items =>
      Some (91 :: join [44]
              (map (fun x => match serialize x with
                             | Some t => t
                             | None => lit "null"
                             end) items) ++ [93])
  | VObj props =>
      Some (123 :: join [44]
              (flat_map (fun p => match serialize (snd p) with
                                  | Some t => [quote (fst p) ++ 58 :: t]
                                  | None => []
                                  end) props) ++ [125])
  end.

(** [JSON.stringify(v)] as a JavaScript value. *)
Definition stringify (v : value) : value :=
  match serialize v with
  | Some t => VStr t
  | None => VUndefined
  end.

(** ** JSON.parse (ECMA-262 JSON grammar)

    The decoder covers whitespace, the three literals, integer numbers,
    strings with every escape, arrays and objects (properties in textual
    order, a repeated key replacing the earlier value).  [None] is the
    SyntaxError; number literals with a fraction or an exponent have no
    counterpart among the integers of the model and are refused too. *)

Definition is_ws (c : Z) : bool :=
  (c =? 32) || (c =? 9) || (c =? 10) || (c =? 13).

Fixpoint skip_ws (s : jsstring) : jsstring :=
  match s with
  | c :: r => if is_ws c then skip_ws r else s
  | [] => []
  end.

Definition hex_value (c : Z) : option Z :=
  if (48 <=? c) && (c <=? 57) then Some (c - 48)
  else if (97 <=? c) && (c <=? 102) then Some (c - 87)
  else if (65 <=? c) && (c <=? 70) then Some (c - 55)
  else None.

Definition hex4 (a b c d : Z) : option Z :=
  match hex_value a, hex_value b, hex_value c, hex_value d with
  | Some x3, Some x2, Some x1, Some x0 =>
      Some (4096 * x3 + 256 * x2 + 16 * x1 + x0)
  | _, _, _, _ => None
  end.

(** The character after a backslash, [u] apart. *)
Definition unescape (e : Z) : option Z :=
  if e =? 34 then Some 34
  else if e =? 92 then Some 92
  else if e =? 47 then Some 47
  else if e =? 98 then Some 8
  else if e =? 102 then Some 12
  else if e =? 110 then Some 10
  else if e =? 114 then Some 13
  else if e =? 116 then Some 9
  else None.

Definition cons_fst {A B : Type} (a : A) (r : option (list A * B))
  : option (list A * B) :=
  match r with
  | Some (t, rest) => Some (a :: t, rest)
  | None => None
  end.

(** The string characters after the opening quote, up to the closing one. *)
Fixpoint parse_chars (s : jsstring) : option (jsstring * jsstring) :=
  match s with
  | [] => None
  | c :: r =>
      if c =? 34 then Some ([], r)
      else if c =? 92 then
        match r with
        | [] => None
        | e :: r1 =>
            if e =? 117 then
              match r1 with
              | a :: b :: c' :: d :: r2 =>
                  match hex4 a b c' d with
                  | Some u => cons_fst u (parse_chars r2)
                  | None => None
                  end
              | _ => None
              end
            else
              match unescape e with
              | Some u => cons_fst u (parse_chars r1)
              | None => None
              end
        end
      else if c <? 32 then None
      else cons_fst c (parse_chars r)
  end.

Definition is_digit (c : Z) : bool := (48 <=? c) && (c <=? 57).

Fixpoint parse_digits (s : jsstring) (acc : Z) : Z * jsstring :=
  match s with
  | c :: r => if is_digit c then parse_digits r (10 * acc + (c - 48))
              else (acc, s)
  | [] => (acc, [])
  end.

Definition integer_end (s : jsstring) : bool :=
  match s with
  | c :: _ => negb ((c =? 46) || (c =? 101) || (c =? 69))
  | [] => true
  end.

Definition parse_number (s : jsstring) : option (Z * jsstring) :=
  let (sign, s1) :=
    match s with
    | c :: r => if c =? 45 then (-1, r) else (1, s)
    | [] => (1, s)
    end in
  match s1 with
  | [] => None
  | c :: r =>
      if c =? 48 then
        if integer_end r then Some (0, r) else None
      else if is_digit c then
        let (n, r') := parse_digits r (c - 48) in
        if integer_end r' then Some (sign * n, r') else None
      else None
  end.

Fixpoint strip_prefix (p s : jsstring) : option jsstring :=
  match p, s with
  | [], _ => Some s
  | a :: p', b :: s' => if a =? b then strip_prefix p' s' else None
  | _ :: _, [] => None
  end.

(** CreateDataProperty on an ordered property list. *)
Fixpoint define (o : object) (k : jsstring) (v : value) : object :=
  match o with
  | [] => [(k, v)]
  | (k', v') :: rest =>
      if str_eqb k' k then (k', v) :: rest else (k', v') :: define rest k v
  end.

Fixpoint parse_value (fuel : nat) (s : jsstring)
  : option (value * jsstring) :=
  match fuel with
  | O => None
  | S n =>
      match skip_ws s with
      | [] => None
      | c :: r =>
          if c =? 34 then
            match parse_chars r with
            | Some (t, r') => Some (VStr t, r')
            | None => None
            end
          else if c =? 91 then
            match skip_ws r with
            | [] => None
            | c1 :: r1 =>
                if c1 =? 93 then Some (VArr [], r1)
                else match parse_elements n r with
                     | Some (vs, r') => Some (VArr vs, r')
                     | None => None
                     end
            end
          else if c =? 123 then
            match skip_ws r with
            | [] => None
            | c1 :: r1 =>
                if c1 =? 125 then Some (VObj [], r1)
                else match parse_members n r [] with
                     | Some (ps, r') => Some (VObj ps, r')
                     | None => None
                     end
            end
          else
            match strip_prefix (lit "null") (c :: r),
                  strip_prefix (lit "true") (c :: r),
                  strip_prefix (lit "false") (c :: r) with
            | Some r', _, _ => Some (VNull, r')
            | _, Some r', _ => Some (VBool true, r')
            | _, _, Some r' => Some (VBool false, r')
            | None, None, None =>
                match parse_number (c :: r) with
                | Some (z, r') => Some (VNum z, r')
                | None => None
                end
            end
      end
  end
with parse_elements (fuel : nat) (s : jsstring)
  : option (list value * jsstring) :=
  match fuel with
  | O => None
  | S n =>
      match parse_value n s with
      | None => None
      | Some (v, r) =>
          match skip_ws r with
          | [] => None
          | c :: r' =>
              if c =? 44 then cons_fst v (parse_elements n r')
              else if c =? 93 then Some ([v], r')
              else None
          end
      end
  end
with parse_members (fuel : nat) (s : jsstring) (acc : object)
  : option (object * jsstring) :=
  match fuel with
  | O => None
  | S n =>
      match skip_ws s with
      | [] => None
      | q :: r =>
          if q =? 34 then
            match parse_chars r with
            | None => None
            | Some (k, r1) =>
                match skip_ws r1 with
                | [] => None
                | colon :: r2 =>
                    if colon =? 58 then
                      match parse_value n r2 with
                      | None => None
                      | Some (v, r3) =>
                          match skip_ws r3 with
                          | [] => None
                          | c :: r4 =>
                              if c =? 44
                              then parse_members n r4 (define acc k v)
                              else if c =? 125
                              then Some (define acc k v, r4)
                              else None
                          end
                      end
                    else None
                end
            end
          else None
      end
  end.

(** [JSON.parse(text)]: one value, then nothing but whitespace. *)
Definition parse (text : jsstring) : option value :=
  match parse_value (S (List.length text)) text with
  | Some (v, rest) =>
      match skip_ws rest with
      | [] => Some v
      | _ :: _ => None
      end
  | None => None
  end.

End JSON.

(** ** The runtime around the handlers

    What a handler can do to the outside: ask the pool for a connection, run
    a query on it, release it, write to the console, and send the response.
    The pool and the database are behind the [Driver] interface; every call
    is recorded, in order, in the trace of the machine. *)

Module Runtime.
Import Js.

(** An Error object as the driver throws it. *)
Record JsError := { code : value; message : jsstring }.

Definition Conn := nat.

(** The first element of the pair an INSERT resolves to. *)
Record ResultSetHeader := { insertId : Z; affectedRows : Z }.

(** [res.status(s).json(b)] *)
Record Response := { status : Z; json : value }.

Inductive Event : Type :=
| GetConnection
| Query (c : Conn) (sql : jsstring) (params : list value)
| Release (c : Conn)
| ConsoleLog (line : jsstring)
| ConsoleError (label : jsstring) (e : JsError)
| Send (r : Response).

(** mysql2's promise pool: [inl] is a rejected promise. *)
Class Driver (W : Type) := {
  pool_getConnection : W -> (JsError + Conn) * W;
  connection_query :
    Conn -> jsstring -> list value -> W -> (JsError + ResultSetHeader) * W;
  connection_release : Conn -> W -> W
}.

Record Machine (W : Type) := { world : W; trace : list Event }.
Arguments world {W} _.
Arguments trace {W} _.

(** The variables of one handler invocation: [let connection]. *)
Record Frame := { connection : option Conn }.

(** How a statement completes. *)
Inductive Completion (A : Type) : Type :=
| Normal (a : A)
| Return
| Throw (e : JsError).
Arguments Normal {A} a.
Arguments Return {A}.
Arguments Throw {A} e.

Definition Exec (W A : Type) : Type :=
  Frame * Machine W -> Completion A * (Frame * Machine W).

Section Statements.
Context {W : Type} {D : Driver W}.

Definition ret {A : Type} (a : A) : Exec W A := fun s => (Normal a, s).

Definition bind {A B : Type} (m : Exec W A) (k : A -> Exec W B) : Exec W B :=
  fun s =>
    match m s with
    | (Normal a, s') => k a s'
    | (Return, s') => (Return, s')
    | (Throw e, s') => (Throw e, s')
    end.

Definition skip : Exec W unit := ret tt.

(** [return;] *)
Definition return_ : Exec W unit := fun s => (Return, s).

(** [if (c) { body }] *)
Definition when (c : bool) (body : Exec W unit) : Exec W unit :=
  if c then body else skip.

Definition emit (ev : Event) : Exec W unit :=
  fun '(f, m) =>
    (Normal tt, (f, {| world := world m; trace := trace m ++ [ev] |})).

Definition res_json (st : Z) (b : value) : Exec W unit :=
  emit (Send {| status := st; json := b |}).

Definition console_log (line : jsstring) : Exec W unit :=
  emit (ConsoleLog line).

Definition console_error (label : jsstring) (e : JsError) : Exec W unit :=
  emit (ConsoleError label e).

Definition set_connection (c : option Conn) : Exec W unit :=
  fun '(_, m) => (Normal tt, ({| connection := c |}, m)).

Definition read_connection : Exec W (option Conn) :=
  fun '(f, m) => (Normal (connection f), (f, m)).

(** [try { t } catch (error) { c error } finally { f }]: the finaliser runs
    whatever the completion of the try or catch block, and that completion
    stands unless the finaliser itself completes abruptly. *)
Definition try_catch_finally {A : Type} (t : Exec W A)
  (c : JsError -> Exec W A) (f : Exec W unit) : Exec W A :=
  fun s =>
    let (r, s1) :=
      match t s with
      | (Throw e, s') => c e s'
      | other => other
      end in
    match f s1 with
    | (Normal _, s2) => (r, s2)
    | (Return, s2) => (Return, s2)
    | (Throw e, s2) => (Throw e, s2)
    end.

(** The promise of an async handler. *)
Inductive Settled : Type :=
| Fulfilled
| Rejected (e : JsError).

(** Calling a handler: a fresh frame, the body run to completion. *)
Definition run (body : Exec W unit) (m : Machine W) : Settled * Machine W :=
  match body ({| connection := None |}, m) with
  | (Normal _, (_, m')) => (Fulfilled, m')
  | (Return, (_, m')) => (Fulfilled, m')
  | (Throw e, (_, m')) => (Rejected e, m')
  end.

End Statements.

Notation "x <- c1 ;; c2" := (bind c1 (fun x => c2))
  (at level 61, c1 at next level, right associativity).
Notation "c1 ;; c2" := (bind c1 (fun _ => c2))
  (at level 61, right associativity).

(** [pool] *)
Module Pool.
Section Methods.
Context {W : Type} {D : Driver W}.

(** [await pool.getConnection()] *)
Definition getConnection : Exec W Conn :=
  fun '(f, m) =>
    let (r, w) := pool_getConnection (world m) in
    let s := (f, {| world := w; trace := trace m ++ [GetConnection] |}) in
    match r with
    | inr c => (Normal c, s)
    | inl e => (Throw e, s)
    end.

End Methods.
End Pool.

(** [connection] *)
Module Connection.
Section Methods.
Context {W : Type} {D : Driver W}.

(** [await connection.query(sql, params)], destructured to its first item. *)
Definition query (c : Conn) (sql : jsstring) (params : list value)
  : Exec W ResultSetHeader :=
  fun '(f, m) =>
    let (r, w) := connection_query c sql params (world m) in
    let s := (f, {| world := w; trace := trace m ++ [Query c sql params] |}) in
    match r with
    | inr h => (Normal h, s)
    | inl e => (Throw e, s)
    end.

(** [connection.release()] *)
Definition release (c : Conn) : Exec W unit :=
  fun '(f, m) =>
    (Normal tt,
     (f, {| world := connection_release c (world m);
            trace := trace m ++ [Release c] |})).

End Methods.
End Connection.

End Runtime.

(** ** server.js *)

Module Server.
Import Js Runtime.

(** [req]: the body is what [express.json()] parsed. *)
Record Request := { body : object }.

(** Line 52: [!fullName || !email || !phone || !city]. *)
Definition required_missing (b : object) : bool :=
  negb (truthy (get b (lit "fullName")))
  || negb (truthy (get b (lit "email")))
  || negb (truthy (get b (lit "phone")))
  || negb (truthy (get b (lit "city"))).

(** Line 57: [isBloodDonor && (!bloodGroup || bloodGroup === '')]. *)
Definition blood_group_missing (b : object) : bool :=
  truthy (get b (lit "isBloodDonor"))
  && (negb (truthy (get b (lit "bloodGroup")))
      || strict_eq_str (get b (lit "bloodGroup")) []).

(** Line 62. *)
Definition organsJson (b : object) : value :=
  JSON.stringify (get b (lit "organs")).

(** Line 64. *)
Definition finalBloodGroup (b : object) : value :=
  if strict_eq_str (get b (lit "bloodGroup")) [] then VNull
  else get b (lit "bloodGroup").

(** Lines 68-71. *)
Definition query : jsstring := lit "
    INSERT INTO donors (full_name, email, phone, blood_group, city, is_blood_donor, is_organ_donor, organs_to_donate)
    VALUES (?, ?, ?, ?, ?, ?, ?, ?);
  ".

(** Lines 73-82. *)
Definition values (b : object) : list value :=
  [ get b (lit "fullName");
    get b (lit "email");
    get b (lit "phone");
    finalBloodGroup b;
    get b (lit "city");
    get b (lit "isBloodDonor");
    get b (lit "isOrganDonor");
    organsJson b ].

Definition error_body (msg : string) : value :=
  VObj [(lit "error", VStr (lit msg))].

Section Routes.
Context {W : Type} {D : Driver W}.

(** [app.get('/api', ...)] *)
Definition health (req : Request) : Exec W unit :=
  res_json 200
    (VObj [(lit "message",
            VStr (lit "Tohf-e-Hayat Backend (MySQL) is running!"))]).

(** [app.post('/api/register', ...)] *)
Definition register (req : Request) : Exec W unit :=
  let b := body req in
  when (required_missing b)
    (res_json 400 (error_body "Please fill out all required fields.") ;;
     return_) ;;
  when (blood_group_missing b)
    (res_json 400 (error_body "Blood group is required for blood donors.") ;;
     return_) ;;
  set_connection None ;;
  try_catch_finally
    (c <- Pool.getConnection ;;
     set_connection (Some c) ;;
     result <- Connection.query c query (values b) ;;
     console_log (lit "New donor registered with ID: "
                  ++ number_to_string (insertId result)) ;;
     res_json 201
       (VObj [(lit "message", VStr (lit "Registration successful!"));
              (lit "donorId", VNum (insertId result))]))
    (fun error =>
       console_error (lit "Database insertion error:") error ;;
       when (strict_eq_str (code error) (lit "ER_DUP_ENTRY"))
         (res_json 409 (error_body "This email is already registered.") ;;
          return_) ;;
       res_json 500
         (error_body
            "An error occurred during registration. Please try again."))
    (c <- read_connection ;;
     match c with
     | Some conn => Connection.release conn
     | None => skip
     end).

End Routes.

End Server.

(** ** An in-memory pool and donors table

    A stand-in for the MySQL side of the [Driver] interface, used to run the
    handlers on concrete requests.  [connection.query] interpolates its
    parameters on the client; [undefined] and [null] are both written as SQL
    NULL.  The table refuses a second row with an email already present
    (ER_DUP_ENTRY) and numbers its rows from its AUTO_INCREMENT counter. *)

Module Memory.
Import Js Runtime.

Record Row := { id : Z; columns : list value }.

Record Store := {
  reachable : bool;
  idle : list Conn;
  leased : list Conn;
  next_thread : Conn;
  donors : list Row;
  auto_increment : Z
}.

Definition to_sql (v : value) : value :=
  match v with
  | VUndefined => VNull
  | _ => v
  end.

Definition email_of (cols : list value) : value := nth 1%nat cols VNull.

Definition email_taken (rows : list Row) (e : value) : bool :=
  match e with
  | VStr s => existsb (fun r => strict_eq_str (email_of (columns r)) s) rows
  | _ => false
  end.

Definition error (c m : string) : JsError :=
  {| code := VStr (lit c); message := lit m |}.

(** An idle connection is handed out as it is; a new one is opened only
    when none is idle, which needs the server to be reachable. *)
Definition acquire (s : Store) : (JsError + Conn) * Store :=
  match idle s with
  | c :: rest =>
      (inr c, {| reachable := reachable s; idle := rest;
                 leased := c :: leased s;
                 next_thread := next_thread s; donors := donors s;
                 auto_increment := auto_increment s |})
  | [] =>
      if reachable s then
        (inr (next_thread s),
         {| reachable := true; idle := [];
            leased := next_thread s :: leased s;
            next_thread := S (next_thread s); donors := donors s;
            auto_increment := auto_increment s |})
      else (inl (error "ECONNREFUSED" "connect ECONNREFUSED"), s)
  end.

Definition insert (c : Conn) (sql : jsstring) (params : list value)
  (s : Store) : (JsError + ResultSetHeader) * Store :=
  if negb (reachable s) then
    (inl (error "PROTOCOL_CONNECTION_LOST" "Connection lost"), s)
  else
    let cols := map to_sql params in
    if email_taken (donors s) (email_of cols) then
      (inl (error "ER_DUP_ENTRY" "Duplicate entry for key 'donors.email'"), s)
    else
      (inr {| insertId := auto_increment s; affectedRows := 1 |},
       {| reachable := reachable s; idle := idle s; leased := leased s;
          next_thread := next_thread s;
          donors := donors s ++ [{| id := auto_increment s; columns := cols |}];
          auto_increment := auto_increment s + 1 |}).

Definition give_back (c : Conn) (s : Store) : Store :=
  {| reachable := reachable s;
     idle := c :: idle s;
     leased := remove Nat.eq_dec c (leased s);
     next_thread := next_thread s;
     donors := donors s;
     auto_increment := auto_increment s |}.

#[global] Instance memory_driver : Driver Store := {
  pool_getConnection := acquire;
  connection_query := insert;
  connection_release := give_back
}.

(** A fresh deployment: no connection open, empty table. *)
Definition fresh : Store :=
  {| reachable := true; idle := []; leased := []; next_thread := 1%nat;
     donors := []; auto_increment := 1 |}.

Definition boot : Machine Store := {| world := fresh; trace := [] |}.

End Memory.

(** ** Reading a trace and a request *)

Module Observe.
Import Js Runtime Server.

(** The responses sent, oldest first. *)
Fixpoint sent (tr : list Event) : list Response :=
  match tr with
  | [] => []
  | Send r :: rest => r :: sent rest
  | _ :: rest => sent rest
  end.

(** The connections given back to the pool, oldest first. *)
Fixpoint released (tr : list Event) : list Conn :=
  match tr with
  | [] => []
  | Release c :: rest => c :: released rest
  | _ :: rest => released rest
  end.

(** Whether an event is a call into the pool or a connection. *)
Definition touches_pool (ev : Event) : bool :=
  match ev with
  | GetConnection | Query _ _ _ | Release _ => true
  | ConsoleLog _ | ConsoleError _ _ | Send _ => false
  end.

(** A field that is missing from the body or is the empty string. *)
Definition missing_or_empty (v : value) : bool :=
  match v with
  | VUndefined => true
  | VStr [] => true
  | _ => false
  end.

(** Neither validation rule fires. *)
Definition passes_validation (b : object) : bool :=
  negb (required_missing b) && negb (blood_group_missing b).

Definition field (req : Request) (k : string) : value :=
  get (body req) (lit k).

(** An ordered sequence of strings as the body parser delivers it. *)
Definition strings (l : list jsstring) : value := VArr (map VStr l).

End Observe.

(** ** Requests and stores used as examples *)

Module Scenario.
Import Js Runtime Server.

Definition text (k v : string) : jsstring * value := (lit k, VStr (lit v)).

(** Scenario A of the specification. *)
Definition ana : Request := {| body :=
  [ text "fullName" "Ana Khan"; text "email" "ana@example.com";
    text "phone" "555-0100"; text "city" "Lahore";
    (lit "isBloodDonor", VBool true); text "bloodGroup" "O+";
    (lit "isOrganDonor", VBool false); (lit "organs", VArr []) ] |}.

(** Scenario C: an empty [fullName]. *)
Definition nameless : Request := {| body :=
  [ (lit "fullName", VStr []); text "email" "x@example.com";
    text "phone" "1"; text "city" "Karachi" ] |}.

(** Scenario D: a blood donor with an empty [bloodGroup]. *)
Definition groupless : Request := {| body :=
  [ text "fullName" "Bilal Ahmed"; text "email" "bilal@example.com";
    text "phone" "555-0101"; text "city" "Karachi";
    (lit "isBloodDonor", VBool true); (lit "bloodGroup", VStr []);
    (lit "isOrganDonor", VBool false); (lit "organs", VArr []) ] |}.

(** An organ-only donor whose form sends an empty [bloodGroup]. *)
Definition organ_donor : Request := {| body :=
  [ text "fullName" "Sara Malik"; text "email" "sara@example.com";
    text "phone" "555-0102"; text "city" "Multan";
    (lit "isBloodDonor", VBool false); (lit "bloodGroup", VStr []);
    (lit "isOrganDonor", VBool true);
    (lit "organs", VArr [VStr (lit "kidney"); VStr (lit "liver")]) ] |}.

(** The same donor with no [bloodGroup] property at all. *)
Definition organ_donor_no_group : Request := {| body :=
  [ text "fullName" "Sara Malik"; text "email" "sara@example.com";
    text "phone" "555-0102"; text "city" "Multan";
    (lit "isBloodDonor", VBool false);
    (lit "isOrganDonor", VBool true);
    (lit "organs", VArr [VStr (lit "kidney"); VStr (lit "liver")]) ] |}.

(** A valid request with no [organs] property. *)
Definition no_organs : Request := {| body :=
  [ text "fullName" "Omar Farooq"; text "email" "omar@example.com";
    text "phone" "555-0103"; text "city" "Quetta";
    (lit "isBloodDonor", VBool true); text "bloodGroup" "A-";
    (lit "isOrganDonor", VBool false) ] |}.

(** Organ names with a quote, a backslash, a line feed, a non-ASCII letter,
    a surrogate pair and a lone surrogate. *)
Definition awkward_organs : list jsstring :=
  [ lit "kidney"; [34; 92; 10; 233; 55357; 56832; 55296]; []; lit "cornea" ].

Definition awkward : Request := {| body :=
  [ text "fullName" "Sara Malik"; text "email" "sara@example.com";
    text "phone" "555-0102"; text "city" "Multan";
    (lit "isOrganDonor", VBool true);
    (lit "organs", VArr (map VStr awkward_organs)) ] |}.

(** The machine after scenario A has run on a fresh deployment. *)
Definition after_ana : Machine Memory.Store :=
  snd (run (register ana) Memory.boot).

(** The server has gone away while one connection sits idle in the pool. *)
Definition server_gone : Machine Memory.Store :=
  {| world := {| Memory.reachable := false; Memory.idle := [1%nat];
                 Memory.leased := []; Memory.next_thread := 2%nat;
                 Memory.donors := []; Memory.auto_increment := 1 |};
     trace := [] |}.

End Scenario.

(** ** Start-up: the environment and the port (lines 20 and 119) *)

Module Startup.
Import Js.

(** [process.env]: a variable that is set holds a string. *)
Definition Env := list (jsstring * jsstring).

(** [process.env.NAME] *)
Definition env_get (env : Env) (name : jsstring) : value :=
  get (map (fun p => (fst p, VStr (snd p))) env) name.

(** [a || b] *)
Definition or_else (a b : value) : value := if truthy a then a else b.

(** Line 20. *)
Definition connectionString (env : Env) : value :=
  env_get env (lit "DATABASE_URL").

(** Line 119. *)
Definition PORT (env : Env) : value :=
  or_else (env_get env (lit "PORT")) (VNum 3001).

End Startup.

(** ** Counting what one call, or a run of calls, does *)

Module Traffic.
Import Js Runtime Server.

Definition is_acquire (ev : Event) : bool :=
  match ev with GetConnection => true | _ => false end.

Definition is_query (ev : Event) : bool :=
  match ev with Query _ _ _ => true | _ => false end.

Definition is_release (ev : Event) : bool :=
  match ev with Release _ => true | _ => false end.

Definition acquisitions (tr : list Event) : nat :=
  List.length (filter is_acquire tr).

Definition queries (tr : list Event) : nat :=
  List.length (filter is_query tr).

Definition releases (tr : list Event) : nat :=
  List.length (filter is_release tr).

(** The errors written with [console.error], oldest first. *)
Fixpoint logged (tr : list Event) : list JsError :=
  match tr with
  | [] => []
  | ConsoleError _ e :: rest => e :: logged rest
  | _ :: rest => logged rest
  end.

Section Calls.
Context {W : Type} {D : Driver W}.

(** What the try block of a valid request throws in world [w], if
    anything: the rejection of [getConnection], else that of the query. *)
Definition thrown (b : object) (w : W) : option JsError :=
  match pool_getConnection w with
  | (inl e, _) => Some e
  | (inr c, w1) =>
      match connection_query c query (values b) w1 with
      | (inl e, _) => Some e
      | (inr _, _) => None
      end
  end.


End Calls.

End Traffic.

(** ** More requests and stores used as examples *)

Module Edge.
Import Js Runtime Server Scenario.

(** Required fields that are present but not strings. *)
Definition typeless : Request := {| body :=
  [ (lit "fullName", VNum 7); (lit "email", VArr []);
    (lit "phone", VBool true); (lit "city", VObj []) ] |}.

(** [fullName] is [null]. *)
Definition null_name : Request := {| body :=
  [ (lit "fullName", VNull); text "email" "x@example.com";
    text "phone" "1"; text "city" "Karachi" ] |}.

(** [isBloodDonor] arrives as the string 'false'; no [bloodGroup]. *)
Definition string_flag : Request := {| body :=
  [ text "fullName" "Hina Raza"; text "email" "hina@example.com";
    text "phone" "555-0104"; text "city" "Lahore";
    text "isBloodDonor" "false"; (lit "organs", VArr []) ] |}.

(** [organs] is present but is [null]. *)
Definition null_organs : Request := {| body :=
  [ text "fullName" "Hina Raza"; text "email" "hina@example.com";
    text "phone" "555-0104"; text "city" "Lahore";
    (lit "organs", VNull) ] |}.

(** No idle connection and the server cannot be reached. *)
Definition unreachable : Machine Memory.Store :=
  {| world := {| Memory.reachable := false; Memory.idle := [];
                 Memory.leased := []; Memory.next_thread := 1%nat;
                 Memory.donors := []; Memory.auto_increment := 1 |};
     trace := [] |}.


(** A fresh deployment that has logged its start-up line (line 121). *)
Definition started : Machine Memory.Store :=
  {| world := Memory.fresh;
     trace := [ConsoleLog (lit "Server is running on port 3001")] |}.

Definition port_unset : Startup.Env :=
  [ (lit "DATABASE_URL", lit "mysql://u:p@db:3306/donors") ].

Definition port_empty : Startup.Env :=
  [ (lit "PORT", []); (lit "DATABASE_URL", lit "mysql://u:p@db:3306/donors") ].

Definition port_zero : Startup.Env := [ (lit "PORT", lit "0") ].

End Edge.

(** ** The handler as it is called (lines 38-49)

    [req.body] is whatever the middleware left: [undefined] when no body was
    parsed, otherwise the parsed value.  The destructuring of lines 40-49
    comes before the [try]: on [undefined] or [null] it throws a TypeError;
    on any other value each name is read as a property, and a value that is
    not an object has none of the eight. *)

Module Inbound.
Import Js Runtime Server.

Record RawRequest := { raw_body : value }.

Definition type_error : JsError :=
  {| code := VUndefined;
     message := lit "Cannot destructure property 'fullName' of 'req.body'" |}.

(** [throw e] *)
Definition throw {W A : Type} (e : JsError) : Exec W A :=
  fun s => (Throw e, s).

(** [const { fullName, ..., organs } = req.body] *)
Definition destructure (v : value) : JsError + object :=
  match v with
  | VUndefined | VNull => inl type_error
  | VObj props => inr props
  | VBool _ | VNum _ | VStr _ | VArr _ => inr []
  end.

Section Handler.
Context {W : Type} {D : Driver W}.

(** The whole arrow function of line 38. *)
Definition post_register (req : RawRequest) : Exec W unit :=
  match destructure (raw_body req) with
  | inl e => throw e
  | inr b => register {| body := b |}
  end.

End Handler.

(** A POST that carried no parsed body. *)
Definition bodyless : RawRequest := {| raw_body := VUndefined |}.

(** A POST whose body is a JSON array. *)
Definition array_body : RawRequest :=
  {| raw_body := VArr [VStr (lit "Ana Khan")] |}.

End Inbound.

Import Js Runtime Server Observe.

(** * Properties *)

Section HandlerFacts.
Context {W : Type} {D : Driver W}.

Lemma missing_or_empty_falsy (v : value) :
  missing_or_empty v = true -> truthy v = false.
Proof.
  destruct v as [| | b | n | s | items | props]; simpl; try discriminate; auto.
  destruct s; [reflexivity | discriminate].
Qed.

(** Line 52 fires: one 400 response and nothing else. *)
Lemma register_required_missing (req : Request) (m : Machine W) :
  required_missing (body req) = true ->
  run (register req) m =
    (Fulfilled,
     {| world := world m;
        trace := trace m ++
          [Send {| status := 400;
                   json := error_body "Please fill out all required fields." |}]
     |}).
Proof.
  intros H. unfold register, run, bind, when. rewrite H. reflexivity.
Qed.

(** Line 52 passes and line 57 fires. *)
Lemma register_blood_group_missing (req : Request) (m : Machine W) :
  required_missing (body req) = false ->
  blood_group_missing (body req) = true ->
  run (register req) m =
    (Fulfilled,
     {| world := world m;
        trace := trace m ++
          [Send {| status := 400;
                   json := error_body
                             "Blood group is required for blood donors." |}]
     |}).
Proof.
  intros H1 H2. unfold register, run, bind, when. rewrite H1, H2. reflexivity.
Qed.

(** A required field that is missing or empty makes line 52 fire. *)
Lemma required_missing_fires (req : Request) :
  missing_or_empty (field req "fullName") = true \/
  missing_or_empty (field req "email") = true \/
  missing_or_empty (field req "phone") = true \/
  missing_or_empty (field req "city") = true ->
  required_missing (body req) = true.
Proof.
  unfold required_missing, field.
  intros [H | [H | [H | H]]];
    apply missing_or_empty_falsy in H; rewrite H; simpl;
    repeat rewrite orb_true_r; reflexivity.
Qed.

(** Both rules pass: the handler goes to the pool, and what it sends is
    decided by what the driver answers. *)
Lemma register_valid (req : Request) (m : Machine W) :
  passes_validation (body req) = true ->
  run (register req) m =
    match pool_getConnection (world m) with
    | (inl e, w1) =>
        (Fulfilled,
         {| world := w1;
            trace := trace m ++
              [GetConnection;
               ConsoleError (lit "Database insertion error:") e;
               Send (if strict_eq_str (code e) (lit "ER_DUP_ENTRY")
                     then {| status := 409;
                             json := error_body
                                       "This email is already registered." |}
                     else {| status := 500;
                             json := error_body
  "An error occurred during registration. Please try again." |})] |})
    | (inr c, w1) =>
        match connection_query c query (values (body req)) w1 with
        | (inr r, w2) =>
            (Fulfilled,
             {| world := connection_release c w2;
                trace := trace m ++
                  [GetConnection;
                   Query c query (values (body req));
                   ConsoleLog (lit "New donor registered with ID: "
                               ++ number_to_string (insertId r));
                   Send {| status := 201;
                           json := VObj
                             [(lit "message",
                               VStr (lit "Registration successful!"));
                              (lit "donorId", VNum (insertId r))] |};
                   Release c] |})
        | (inl e, w2) =>
            (Fulfilled,
             {| world := connection_release c w2;
                trace := trace m ++
                  [GetConnection;
                   Query c query (values (body req));
                   ConsoleError (lit "Database insertion error:") e;
                   Send (if strict_eq_str (code e) (lit "ER_DUP_ENTRY")
                         then {| status := 409;
                                 json := error_body
                                   "This email is already registered." |}
                         else {| status := 500;
                                 json := error_body
  "An error occurred during registration. Please try again." |});
                   Release c] |})
        end
    end.
Proof.
  unfold passes_validation. intros H.
  apply andb_prop in H. destruct H as [H1 H2].
  apply negb_true_iff in H1. apply negb_true_iff in H2.
  unfold register, run, bind, when, try_catch_finally. rewrite H1, H2.
  cbn [skip ret set_connection Pool.getConnection world trace].
  destruct (pool_getConnection (world m)) as [[e | c] w1].
  - cbn. destruct (strict_eq_str (code e) (lit "ER_DUP_ENTRY"));
      cbn; repeat rewrite <- app_assoc; reflexivity.
  - cbn.
    destruct (connection_query c query (values (body req)) w1)
      as [[e | r] w2].
    + cbn. destruct (strict_eq_str (code e) (lit "ER_DUP_ENTRY"));
        cbn; repeat rewrite <- app_assoc; reflexivity.
    + cbn. repeat rewrite <- app_assoc. reflexivity.
Qed.

End HandlerFacts.

Section TraceFacts.

Lemma sent_app (a b : list Event) : sent (a ++ b) = sent a ++ sent b.
Proof.
  induction a as [| ev a IH]; simpl; [reflexivity |].
  destruct ev; simpl; rewrite IH; reflexivity.
Qed.

Lemma released_app (a b : list Event) :
  released (a ++ b) = released a ++ released b.
Proof.
  induction a as [| ev a IH]; simpl; [reflexivity |].
  destruct ev; simpl; rewrite IH; reflexivity.
Qed.

Lemma str_eqb_eq (s t : jsstring) : str_eqb s t = true <-> s = t.
Proof.
  revert t. induction s as [| a s IH]; intros [| b t]; simpl;
    try (split; [discriminate | intros E; discriminate E]).
  - split; reflexivity.
  - rewrite andb_true_iff, Z.eqb_eq, IH. split.
    + intros [-> ->]. reflexivity.
    + intros E. injection E. auto.
Qed.

Lemma strict_eq_str_eq (v : value) (s : jsstring) :
  strict_eq_str v s = true <-> v = VStr s.
Proof.
  destruct v; simpl; try (split; [discriminate | intros E; discriminate E]).
  rewrite str_eqb_eq. split; intros E; [subst | injection E]; auto.
Qed.

Lemma strict_eq_str_neq (v : value) (s : jsstring) :
  v <> VStr s -> strict_eq_str v s = false.
Proof.
  intros N. destruct (strict_eq_str v s) eqn:E; [| reflexivity].
  apply strict_eq_str_eq in E. contradiction.
Qed.

End TraceFacts.

Section HandlerClaims.
Context {W : Type} {D : Driver W}.

(** C1. A registration request in which [fullName], [email], [phone] or
    [city] is missing or the empty string is answered with status 400 and the
    required-fields message, and nothing is persisted: the response is the
    only event of the call, no query is issued and the world behind the
    driver (pool and donors table) is left as it was. *)
Theorem register_missing_required_field (req : Request) (m : Machine W) :
  missing_or_empty (field req "fullName") = true \/
  missing_or_empty (field req "email") = true \/
  missing_or_empty (field req "phone") = true \/
  missing_or_empty (field req "city") = true ->
  run (register req) m =
    (Fulfilled,
     {| world := world m;
        trace := trace m ++
          [Send {| status := 400;
                   json := VObj [(lit "error",
                     VStr (lit "Please fill out all required fields."))] |}]
     |}).
Proof.
  intros H. apply register_required_missing.
  apply required_missing_fires. exact H.
Qed.

(** C4. When [fullName], [email], [phone] and [city] are all present and
    non-empty (a non-empty string, or any other value JavaScript takes for
    true), [isBloodDonor] is [true] and [bloodGroup] is missing or the empty
    string, the answer is status 400 with the blood-group message and the
    world is untouched.  The rule comes second: with the same [isBloodDonor]
    and [bloodGroup] but a required field missing or empty, the answer is the
    required-fields message. *)
Theorem register_blood_donor_without_group (req : Request) (m : Machine W) :
  field req "isBloodDonor" = VBool true ->
  missing_or_empty (field req "bloodGroup") = true ->
  (truthy (field req "fullName") = true ->
   truthy (field req "email") = true ->
   truthy (field req "phone") = true ->
   truthy (field req "city") = true ->
   run (register req) m =
     (Fulfilled,
      {| world := world m;
         trace := trace m ++
           [Send {| status := 400;
                    json := VObj [(lit "error",
                      VStr (lit "Blood group is required for blood donors."))]
                 |}] |}))
  /\
  (missing_or_empty (field req "fullName") = true \/
   missing_or_empty (field req "email") = true \/
   missing_or_empty (field req "phone") = true \/
   missing_or_empty (field req "city") = true ->
   run (register req) m =
     (Fulfilled,
      {| world := world m;
         trace := trace m ++
           [Send {| status := 400;
                    json := VObj [(lit "error",
                      VStr (lit "Please fill out all required fields."))] |}]
      |})).
Proof.
  intros Hd Hg. split.
  - intros H1 H2 H3 H4. apply register_blood_group_missing.
    + unfold required_missing, field in *. rewrite H1, H2, H3, H4.
      reflexivity.
    + unfold blood_group_missing, field in *. rewrite Hd.
      apply missing_or_empty_falsy in Hg. rewrite Hg. reflexivity.
  - intros H. apply register_required_missing.
    apply required_missing_fires. exact H.
Qed.

(** C9. A request that fails either validation rule never reaches the pool:
    the call changes nothing in the world behind the driver (the pool's state
    included), it adds no call to the pool or to a connection to the trace,
    and the single event it does add is the 400 response. *)
Theorem register_invalid_leaves_pool_alone (req : Request) (m : Machine W) :
  required_missing (body req) = true \/
  blood_group_missing (body req) = true ->
  world (snd (run (register req) m)) = world m /\
  filter touches_pool (trace (snd (run (register req) m))) =
    filter touches_pool (trace m) /\
  exists r : Response,
    status r = 400 /\
    trace (snd (run (register req) m)) = trace m ++ [Send r].
Proof.
  intros H.
  destruct (required_missing (body req)) eqn:E1.
  - rewrite (register_required_missing req m E1). cbn [snd world trace].
    split; [reflexivity |]. split.
    + rewrite filter_app. cbn. apply app_nil_r.
    + eexists. refine (conj _ eq_refl). reflexivity.
  - destruct H as [H | H]; [discriminate |].
    rewrite (register_blood_group_missing req m E1 H). cbn [snd world trace].
    split; [reflexivity |]. split.
    + rewrite filter_app. cbn. apply app_nil_r.
    + eexists. refine (conj _ eq_refl). reflexivity.
Qed.

(** C8. The health check answers every request with status 200 and the same
    fixed message, whatever the driver and whatever state the pool and the
    database are in; the response is the only event of the call and the world
    behind the driver is unchanged. *)
Theorem health_is_static (req : Request) (m : Machine W) :
  run (health req) m =
    (Fulfilled,
     {| world := world m;
        trace := trace m ++
          [Send {| status := 200;
                   json := VObj [(lit "message",
                     VStr (lit "Tohf-e-Hayat Backend (MySQL) is running!"))]
                |}] |}).
Proof. reflexivity. Qed.

(** C2. For a valid request whose insert fails with error [e], the response
    is decided by [e.code] alone: ER_DUP_ENTRY gives 409 with
    'This email is already registered.', anything else gives 500 with one
    fixed message, the same for every [e], so nothing of the cause is in the
    body. *)
Theorem register_insert_failure (req : Request) (m : Machine W)
  (c : Conn) (w1 w2 : W) (e : JsError) :
  passes_validation (body req) = true ->
  pool_getConnection (world m) = (inr c, w1) ->
  connection_query c query (values (body req)) w1 = (inl e, w2) ->
  (code e = VStr (lit "ER_DUP_ENTRY") ->
   sent (trace (snd (run (register req) m))) =
     sent (trace m) ++
     [{| status := 409;
         json := VObj [(lit "error",
                        VStr (lit "This email is already registered."))] |}])
  /\
  (code e <> VStr (lit "ER_DUP_ENTRY") ->
   sent (trace (snd (run (register req) m))) =
     sent (trace m) ++
     [{| status := 500;
         json := VObj [(lit "error", VStr (lit
           "An error occurred during registration. Please try again."))] |}]).
Proof.
  intros Hv Hc Hq. rewrite (register_valid req m Hv), Hc, Hq.
  cbn [snd trace]. rewrite sent_app. split; intros Hcode.
  - apply strict_eq_str_eq in Hcode. rewrite Hcode. reflexivity.
  - apply strict_eq_str_neq in Hcode. rewrite Hcode. reflexivity.
Qed.

(** C5. Whenever the pool hands out a connection [c], whatever the query
    then does (success, duplicate key, any other error), [c] is released
    exactly once during the call, as its last step: one release is added to
    the trace, it is the final event, and the world the call leaves is the
    one after the query with [c] given back. *)
Theorem register_releases_once (req : Request) (m : Machine W)
  (c : Conn) (w1 : W) :
  passes_validation (body req) = true ->
  pool_getConnection (world m) = (inr c, w1) ->
  let m' := snd (run (register req) m) in
  released (trace m') = released (trace m) ++ [c] /\
  (exists pre, trace m' = trace m ++ pre ++ [Release c]
               /\ released pre = []) /\
  world m' =
    connection_release c
      (snd (connection_query c query (values (body req)) w1)).
Proof.
  intros Hv Hc m'. subst m'. rewrite (register_valid req m Hv), Hc.
  destruct (connection_query c query (values (body req)) w1)
    as [[e | r] w2]; cbn [snd trace world]; rewrite released_app.
  - split; [reflexivity | split; [| reflexivity]].
    eexists [_; _; _; _]. split; reflexivity.
  - split; [reflexivity | split; [| reflexivity]].
    eexists [_; _; _; _]. split; reflexivity.
Qed.

(** C6. For a valid request whose insert succeeds with result [r], where
    the storage layer numbers rows from 1 ([r.insertId] is positive), the
    response is 201 with the confirmation message and a positive integer
    [donorId], the identifier the storage assigned. *)
Theorem register_success (req : Request) (m : Machine W)
  (c : Conn) (w1 w2 : W) (r : ResultSetHeader) :
  passes_validation (body req) = true ->
  pool_getConnection (world m) = (inr c, w1) ->
  connection_query c query (values (body req)) w1 = (inr r, w2) ->
  0 < insertId r ->
  exists n : Z,
    0 < n /\ n = insertId r /\
    sent (trace (snd (run (register req) m))) =
      sent (trace m) ++
      [{| status := 201;
          json := VObj [(lit "message", VStr (lit "Registration successful!"));
                        (lit "donorId", VNum n)] |}].
Proof.
  intros Hv Hc Hq Hpos. exists (insertId r).
  rewrite (register_valid req m Hv), Hc, Hq.
  cbn [snd trace]. rewrite sent_app. repeat split; assumption.
Qed.

End HandlerClaims.

(** ** JSON: decoding what [JSON.stringify] wrote *)

Section JsonFacts.
Import JSON.

Lemma hex_value_digit (d : Z) :
  0 <= d < 16 -> hex_value (hex_digit d) = Some d.
Proof.
  intros Hd. unfold hex_value, hex_digit.
  destruct (Z.ltb_spec d 10) as [Hlt | Hge].
  - replace ((48 <=? 48 + d) && (48 + d <=? 57)) with true.
    + f_equal. lia.
    + symmetry. apply andb_true_intro. split; apply Z.leb_le; lia.
  - replace ((48 <=? 87 + d) && (87 + d <=? 57)) with false.
    + replace ((97 <=? 87 + d) && (87 + d <=? 102)) with true.
      * f_equal. lia.
      * symmetry. apply andb_true_intro. split; apply Z.leb_le; lia.
    + symmetry. apply andb_false_intro2. apply Z.leb_gt. lia.
Qed.

Lemma hex4_escape (c : Z) :
  0 <= c < 65536 ->
  hex4 (hex_digit (c / 4096)) (hex_digit ((c / 256) mod 16))
       (hex_digit ((c / 16) mod 16)) (hex_digit (c mod 16)) = Some c.
Proof.
  intros Hc. unfold hex4.
  rewrite !hex_value_digit by (Z.div_mod_to_equations; lia).
  f_equal. Z.div_mod_to_equations. lia.
Qed.

Lemma is_code_unit_range (c : Z) :
  is_code_unit c = true -> 0 <= c < 65536.
Proof.
  unfold is_code_unit. intros H. apply andb_prop in H.
  destruct H as [H1 H2]. apply Z.leb_le in H1. apply Z.ltb_lt in H2. lia.
Qed.

(** A character the string grammar accepts as it stands. *)
Lemma parse_chars_plain (c : Z) (r : jsstring) :
  32 <= c -> c <> 34 -> c <> 92 ->
  parse_chars (c :: r) = cons_fst c (parse_chars r).
Proof.
  intros H32 H34 H92. cbn [parse_chars].
  apply Z.eqb_neq in H34. apply Z.eqb_neq in H92. rewrite H34, H92.
  replace (c <? 32) with false by (symmetry; apply Z.ltb_ge; lia).
  reflexivity.
Qed.

Lemma parse_chars_unicode_escape (c : Z) (r : jsstring) :
  0 <= c < 65536 ->
  parse_chars (unicode_escape c ++ r) = cons_fst c (parse_chars r).
Proof.
  intros Hc. unfold unicode_escape. cbn [app parse_chars].
  change (92 =? 34) with false. change (92 =? 92) with true.
  change (117 =? 117) with true. cbn iota.
  rewrite (hex4_escape c Hc). reflexivity.
Qed.

Lemma parse_chars_quote_unit (c : Z) (r : jsstring) :
  is_code_unit c = true ->
  parse_chars (quote_unit c ++ r) = cons_fst c (parse_chars r).
Proof.
  intros Hc. apply is_code_unit_range in Hc. unfold quote_unit.
  destruct (Z.eqb_spec c 8) as [-> | N8]; [reflexivity |].
  destruct (Z.eqb_spec c 9) as [-> | N9]; [reflexivity |].
  destruct (Z.eqb_spec c 10) as [-> | N10]; [reflexivity |].
  destruct (Z.eqb_spec c 12) as [-> | N12]; [reflexivity |].
  destruct (Z.eqb_spec c 13) as [-> | N13]; [reflexivity |].
  destruct (Z.eqb_spec c 34) as [-> | N34]; [reflexivity |].
  destruct (Z.eqb_spec c 92) as [-> | N92]; [reflexivity |].
  destruct (Z.ltb_spec c 32) as [Hlow | Hhigh]; cbn [orb].
  - apply parse_chars_unicode_escape. exact Hc.
  - destruct (is_lead c || is_trail c).
    + apply parse_chars_unicode_escape. exact Hc.
    + cbn [app]. apply parse_chars_plain; assumption.
Qed.

Lemma surrogate_plain (c : Z) :
  is_lead c = true \/ is_trail c = true -> 32 <= c /\ c <> 34 /\ c <> 92.
Proof.
  unfold is_lead, is_trail.
  intros [H | H]; apply andb_prop in H; destruct H as [H1 H2];
    apply Z.leb_le in H1; lia.
Qed.

Lemma quote_units_pair (c d : Z) (s : jsstring) :
  quote_units (c :: d :: s) =
    if is_lead c && is_trail d then c :: d :: quote_units s
    else quote_unit c ++ quote_units (d :: s).
Proof. reflexivity. Qed.

Lemma parse_chars_quote_units_bounded (n : nat) :
  forall (s rest : jsstring),
    (List.length s <= n)%nat ->
    well_formed s = true ->
    parse_chars (quote_units s ++ 34 :: rest) = Some (s, rest).
Proof.
  induction n as [| n IH]; intros s rest Hlen Hwf.
  - destruct s; [reflexivity | simpl in Hlen; lia].
  - destruct s as [| c [| d s']].
    + reflexivity.
    + simpl in Hwf. rewrite andb_true_r in Hwf.
      cbn [quote_units]. rewrite parse_chars_quote_unit by exact Hwf.
      reflexivity.
    + cbn [well_formed forallb] in Hwf.
      apply andb_prop in Hwf. destruct Hwf as [Hc Hwf].
      rewrite quote_units_pair.
      destruct (is_lead c && is_trail d) eqn:Hpair.
      * apply andb_prop in Hpair. destruct Hpair as [Hl Ht].
        apply andb_prop in Hwf. destruct Hwf as [Hd Hwf].
        destruct (surrogate_plain c (or_introl Hl)) as (A1 & A2 & A3).
        destruct (surrogate_plain d (or_intror Ht)) as (B1 & B2 & B3).
        cbn [app].
        rewrite (parse_chars_plain c _ A1 A2 A3).
        rewrite (parse_chars_plain d _ B1 B2 B3).
        rewrite IH; [reflexivity | simpl in Hlen; lia | exact Hwf].
      * rewrite <- app_assoc. rewrite parse_chars_quote_unit by exact Hc.
        rewrite IH; [reflexivity | simpl in Hlen |- *; lia | exact Hwf].
Qed.

(** Reading back a quoted string gives the string. *)
Lemma parse_chars_quote_units (s rest : jsstring) :
  well_formed s = true ->
  parse_chars (quote_units s ++ 34 :: rest) = Some (s, rest).
Proof.
  intros Hwf.
  apply (parse_chars_quote_units_bounded (List.length s)); [lia | exact Hwf].
Qed.

Lemma parse_value_quote (n : nat) (s rest : jsstring) :
  well_formed s = true ->
  parse_value (S n) (quote s ++ rest) = Some (VStr s, rest).
Proof.
  intros Hwf. unfold quote. cbn [app parse_value skip_ws].
  change (is_ws 34) with false. cbn iota. change (34 =? 34) with true.
  cbn iota. rewrite <- app_assoc. cbn [app].
  rewrite parse_chars_quote_units by exact Hwf. reflexivity.
Qed.

End JsonFacts.

Section ArrayFacts.
Import JSON.

Lemma serialize_strings (l : list jsstring) :
  serialize (strings l) = Some (91 :: join [44] (map quote l) ++ [93]).
Proof.
  unfold strings. cbn [serialize]. rewrite map_map. reflexivity.
Qed.

Lemma join_cons2 (x y : jsstring) (l : list jsstring) :
  join [44] (x :: y :: l) = x ++ 44 :: join [44] (y :: l).
Proof. reflexivity. Qed.

Lemma parse_elements_step (n : nat) (s : jsstring) :
  parse_elements (S n) s =
    match parse_value n s with
    | None => None
    | Some (v, r) =>
        match skip_ws r with
        | [] => None
        | c :: r' =>
            if c =? 44 then cons_fst v (parse_elements n r')
            else if c =? 93 then Some ([v], r')
            else None
        end
    end.
Proof. reflexivity. Qed.

(** The elements after the opening bracket, up to the closing one. *)
Lemma parse_elements_quoted (l : list jsstring) :
  forall (x : jsstring) (n : nat) (rest : jsstring),
    forallb well_formed (x :: l) = true ->
    (List.length (x :: l) < n)%nat ->
    parse_elements n (join [44] (map quote (x :: l)) ++ 93 :: rest)
      = Some (map VStr (x :: l), rest).
Proof.
  induction l as [| y l IH]; intros x n rest Hwf Hn;
    cbn [forallb] in Hwf; apply andb_prop in Hwf; destruct Hwf as [Hx Hl].
  - destruct n as [| [| n]]; try (simpl in Hn; lia).
    cbn [map join]. rewrite parse_elements_step.
    rewrite parse_value_quote by exact Hx. reflexivity.
  - destruct n as [| [| n]]; try (simpl in Hn; lia).
    cbn [map]. rewrite join_cons2. rewrite <- app_assoc.
    rewrite parse_elements_step. rewrite parse_value_quote by exact Hx.
    cbn [app skip_ws]. change (is_ws 44) with false. cbn iota.
    change (44 =? 44) with true. cbn iota.
    change (quote y :: map quote l) with (map quote (y :: l)).
    rewrite IH; [reflexivity | exact Hl | simpl in Hn |- *; lia].
Qed.

Lemma join_quote_length (l : list jsstring) :
  (List.length l <= List.length (join [44%Z] (map quote l)))%nat.
Proof.
  induction l as [| x [| y l] IH].
  - simpl. lia.
  - simpl. lia.
  - cbn [map]. rewrite join_cons2. rewrite length_app.
    cbn [List.length map] in *. lia.
Qed.

Lemma parse_value_bracket (n : nat) (x r : jsstring) :
  parse_value (S n) (91 :: quote x ++ r) =
    match parse_elements n (quote x ++ r) with
    | Some (vs, r') => Some (VArr vs, r')
    | None => None
    end.
Proof. reflexivity. Qed.

Lemma join_quote_head (x : jsstring) (l : list jsstring) (r : jsstring) :
  exists r', join [44] (map quote (x :: l)) ++ r = quote x ++ r'.
Proof.
  destruct l as [| y l].
  - exists r. reflexivity.
  - cbn [map]. rewrite join_cons2, <- app_assoc. eexists. reflexivity.
Qed.

(** Decoding the text written for a list of strings gives the list back. *)
Lemma parse_serialized_strings (l : list jsstring) :
  forallb well_formed l = true ->
  exists text, serialize (strings l) = Some text
               /\ parse text = Some (strings l).
Proof.
  intros Hwf. rewrite serialize_strings. eexists. split; [reflexivity |].
  unfold parse.
  destruct l as [| x l]; [reflexivity |].
  set (n := List.length (91 :: join [44] (map quote (x :: l)) ++ [93])).
  assert (Hn : (List.length (x :: l) < n)%nat).
  { subst n. cbn [List.length]. rewrite length_app.
    pose proof (join_quote_length (x :: l)) as Hj.
    cbn [List.length] in *. lia. }
  destruct (join_quote_head x l [93]) as [r' Hr'].
  rewrite Hr', parse_value_bracket, <- Hr'.
  rewrite parse_elements_quoted by assumption.
  reflexivity.
Qed.

End ArrayFacts.

(** ** What the insert is given *)

Section ParameterClaims.
Context {W : Type} {D : Driver W}.

(** C7. When [organs] is an ordered sequence of strings (the empty one
    included), the eighth parameter of the insert, the value stored in
    [organs_to_donate], is a JSON text, and decoding that text gives the same
    strings in the same order. *)
Theorem organs_round_trip (req : Request) (organs : list jsstring) :
  forallb well_formed organs = true ->
  field req "organs" = strings organs ->
  exists text : jsstring,
    nth_error (values (body req)) 7 = Some (VStr text) /\
    JSON.parse text = Some (strings organs).
Proof.
  intros Hwf Horg.
  destruct (parse_serialized_strings organs Hwf) as (text & Hs & Hp).
  exists text. split; [| exact Hp].
  cbn [values nth_error]. unfold organsJson, JSON.stringify.
  unfold field in Horg. rewrite Horg, Hs. reflexivity.
Qed.

(** C10 (amended). For a request that passes validation and has no [organs]
    property, [JSON.stringify] gives [undefined], not a JSON text, so the
    eighth parameter of the insert is [undefined] and never the encoding of
    an empty list.  The handler does not reject the request: once a
    connection is obtained the insert is attempted with that parameter, and
    the response follows the driver's answer as for any other request, 201
    with the assigned identifier when the insert is accepted, 409 for
    ER_DUP_ENTRY and 500 for any other error. *)
Theorem register_without_organs (req : Request) (m : Machine W)
  (c : Conn) (w1 : W) :
  passes_validation (body req) = true ->
  field req "organs" = VUndefined ->
  pool_getConnection (world m) = (inr c, w1) ->
  organsJson (body req) = VUndefined /\
  nth_error (values (body req)) 7 = Some VUndefined /\
  In (Query c query (values (body req)))
     (trace (snd (run (register req) m))) /\
  sent (trace (snd (run (register req) m))) =
    sent (trace m) ++
    [match fst (connection_query c query (values (body req)) w1) with
     | inr r =>
         {| status := 201;
            json := VObj
              [(lit "message", VStr (lit "Registration successful!"));
               (lit "donorId", VNum (insertId r))] |}
     | inl e =>
         if strict_eq_str (code e) (lit "ER_DUP_ENTRY")
         then {| status := 409;
                 json := VObj [(lit "error", VStr (lit
                   "This email is already registered."))] |}
         else {| status := 500;
                 json := VObj [(lit "error", VStr (lit
                   "An error occurred during registration. Please try again."))]
              |}
     end].
Proof.
  intros Hv Horg Hc.
  assert (Hj : organsJson (body req) = VUndefined).
  { unfold organsJson. unfold field in Horg. rewrite Horg. reflexivity. }
  split; [exact Hj |].
  split; [cbn [values nth_error]; rewrite Hj; reflexivity |].
  rewrite (register_valid req m Hv), Hc.
  destruct (connection_query c query (values (body req)) w1)
    as [[e | r] w2]; cbn [fst snd trace]; rewrite sent_app; split;
    try reflexivity;
    apply in_or_app; right; right; left; reflexivity.
Qed.

End ParameterClaims.

(** ** What reaches the table *)

Section Persistence.

Lemma acquire_donors (s : Memory.Store) :
  Memory.donors (snd (Memory.acquire s)) = Memory.donors s.
Proof.
  unfold Memory.acquire. destruct (Memory.idle s); [| reflexivity].
  destruct (Memory.reachable s); reflexivity.
Qed.

(** An insert adds at most one row, made of the parameters as the driver
    writes them, and adds it exactly when it succeeds. *)
Lemma insert_rows (c : Conn) (sql : jsstring) (params : list value)
  (s : Memory.Store) :
  exists added : list Memory.Row,
    Memory.donors (snd (Memory.insert c sql params s)) =
      Memory.donors s ++ added /\
    Forall (fun row => Memory.columns row = map Memory.to_sql params) added /\
    match fst (Memory.insert c sql params s) with
    | inr _ => List.length added = 1%nat
    | inl _ => added = []
    end.
Proof.
  unfold Memory.insert.
  destruct (negb (Memory.reachable s)).
  - exists []. cbn. rewrite app_nil_r. repeat split. constructor.
  - destruct (Memory.email_taken _ _).
    + exists []. cbn. rewrite app_nil_r. repeat split. constructor.
    + eexists [_]. cbn. repeat split. constructor; [reflexivity | constructor].
Qed.

Lemma missing_blood_group_written_null (b : object) :
  missing_or_empty (get b (lit "bloodGroup")) = true ->
  nth_error (map Memory.to_sql (values b)) 3 = Some VNull.
Proof.
  intros Hg. cbn [values map nth_error]. unfold finalBloodGroup.
  destruct (get b (lit "bloodGroup")) as [| | x | n | s | items | props];
    try discriminate Hg; [reflexivity |].
  destruct s; [reflexivity | discriminate Hg].
Qed.

(** C3. For a request that passes validation and whose [bloodGroup] is
    missing or the empty string, whatever its donor flags, the value
    persisted for [blood_group] is NULL: the fourth parameter is written by
    the driver as NULL, and every row the call adds to the donors table has
    NULL in that column, so never an empty string and never an [undefined]
    left in place.  When the call answers 201 there is exactly one such
    row. *)
Theorem blood_group_persisted_null (req : Request)
  (m : Machine Memory.Store) :
  passes_validation (body req) = true ->
  missing_or_empty (field req "bloodGroup") = true ->
  nth_error (map Memory.to_sql (values (body req))) 3 = Some VNull /\
  exists added : list Memory.Row,
    Memory.donors (world (snd (run (register req) m))) =
      Memory.donors (world m) ++ added /\
    Forall (fun row => nth_error (Memory.columns row) 3 = Some VNull) added /\
    (forall r : Response,
       sent (trace (snd (run (register req) m))) = sent (trace m) ++ [r] ->
       status r = 201 -> List.length added = 1%nat).
Proof.
  intros Hv Hg. unfold field in Hg.
  pose proof (missing_blood_group_written_null (body req) Hg) as Hnull.
  split; [exact Hnull |].
  rewrite (register_valid req m Hv).
  change (pool_getConnection (world m)) with (Memory.acquire (world m)).
  pose proof (acquire_donors (world m)) as Ha.
  destruct (Memory.acquire (world m)) as [[e | c] w1]; cbn [snd] in Ha.
  - exists []. cbn [snd world trace]. rewrite app_nil_r.
    split; [exact Ha |]. split; [constructor |].
    intros r Hs Hst. rewrite sent_app in Hs. cbn [sent] in Hs.
    apply app_inv_head in Hs. injection Hs as Hs. subst r.
    destruct (strict_eq_str (code e) (lit "ER_DUP_ENTRY")); discriminate Hst.
  - change (connection_query c query (values (body req)) w1)
      with (Memory.insert c query (values (body req)) w1).
    destruct (insert_rows c query (values (body req)) w1)
      as (added & Hd & Hall & Hlen).
    exists added.
    destruct (Memory.insert c query (values (body req)) w1)
      as [[e | h] w2]; cbn [fst snd] in Hd, Hlen;
      cbn [snd world trace connection_release Memory.memory_driver];
      change (Memory.donors (Memory.give_back c w2))
        with (Memory.donors w2);
      rewrite Hd, Ha;
      (split; [reflexivity |]);
      (split; [eapply Forall_impl; [| exact Hall];
               intros row Hrow; rewrite Hrow; exact Hnull |]).
    + intros r Hs Hst. rewrite sent_app in Hs. cbn [sent] in Hs.
      apply app_inv_head in Hs. injection Hs as Hs. subst r.
      destruct (strict_eq_str (code e) (lit "ER_DUP_ENTRY"));
        discriminate Hst.
    + intros _ _ _. exact Hlen.
Qed.

End Persistence.

(** * Worked examples *)

Section Witnesses.
Import Scenario.

(** Scenario C, sent after scenario A: one 400, the table as it was. *)
Lemma register_missing_required_field_witness :
  missing_or_empty (field nameless "fullName") = true /\
  run (register nameless) after_ana =
    (Fulfilled,
     {| world := world after_ana;
        trace := trace after_ana ++
          [Send {| status := 400;
                   json := VObj [(lit "error",
                     VStr (lit "Please fill out all required fields."))] |}]
     |}).
Proof.
  split; [reflexivity |].
  apply (register_missing_required_field nameless after_ana).
  left. reflexivity.
Defined.

(** Scenario D, and scenario D with the email emptied as well. *)
Lemma register_blood_donor_without_group_witness :
  sent (trace (snd (run (register groupless) Memory.boot))) =
    [{| status := 400;
        json := VObj [(lit "error",
          VStr (lit "Blood group is required for blood donors."))] |}] /\
  world (snd (run (register groupless) Memory.boot)) = Memory.fresh.
Proof.
  destruct (register_blood_donor_without_group groupless Memory.boot
              eq_refl eq_refl) as [Hfirst _].
  rewrite (Hfirst eq_refl eq_refl eq_refl eq_refl).
  split; reflexivity.
Defined.

(** Scenario D never reaches the pool. *)
Lemma register_invalid_leaves_pool_alone_witness :
  blood_group_missing (body groupless) = true /\
  world (snd (run (register groupless) after_ana)) = world after_ana /\
  filter touches_pool (trace (snd (run (register groupless) after_ana))) =
    filter touches_pool (trace after_ana).
Proof.
  split; [reflexivity |].
  destruct (register_invalid_leaves_pool_alone groupless after_ana
              (or_intror eq_refl)) as (Hw & Hp & _).
  split; [exact Hw | exact Hp].
Defined.

(** Scenario B (the payload of A again) and a lost connection. *)
Lemma register_insert_failure_witness :
  sent (trace (snd (run (register ana) after_ana))) =
    sent (trace after_ana) ++
    [{| status := 409;
        json := VObj [(lit "error",
                       VStr (lit "This email is already registered."))] |}]
  /\
  sent (trace (snd (run (register ana) server_gone))) =
    [{| status := 500;
        json := VObj [(lit "error", VStr (lit
          "An error occurred during registration. Please try again."))] |}].
Proof.
  split.
  - pose proof (@register_insert_failure _ Memory.memory_driver
                  ana after_ana 1%nat _ _ _
                  eq_refl eq_refl eq_refl) as [Hdup _].
    apply Hdup. reflexivity.
  - pose proof (@register_insert_failure _ Memory.memory_driver
                  ana server_gone 1%nat _ _ _
                  eq_refl eq_refl eq_refl) as [_ Hother].
    apply Hother. intros E. vm_compute in E. discriminate E.
Defined.

(** Scenario A and scenario B each release connection 1 once. *)
Lemma register_releases_once_witness :
  released (trace (snd (run (register ana) Memory.boot))) = [1%nat] /\
  released (trace (snd (run (register ana) after_ana))) = [1%nat; 1%nat] /\
  Memory.leased (world (snd (run (register ana) after_ana))) = [].
Proof.
  pose proof (@register_releases_once _ Memory.memory_driver
                ana Memory.boot 1%nat _
                eq_refl eq_refl) as [H1 _].
  pose proof (@register_releases_once _ Memory.memory_driver
                ana after_ana 1%nat _
                eq_refl eq_refl) as [H2 [_ H3]].
  split; [exact H1 |]. split; [exact H2 |].
  rewrite H3. reflexivity.
Defined.

(** Scenario A on a fresh deployment: 201 and donorId 1. *)
Lemma register_success_witness :
  exists n : Z,
    0 < n /\ n = 1 /\
    sent (trace (snd (run (register ana) Memory.boot))) =
      [{| status := 201;
          json := VObj [(lit "message", VStr (lit "Registration successful!"));
                        (lit "donorId", VNum n)] |}].
Proof.
  pose proof (@register_success _ Memory.memory_driver
                ana Memory.boot 1%nat _ _ _
                eq_refl eq_refl eq_refl) as H.
  exact (H eq_refl).
Defined.

(** Organ names that need every kind of escape come back unchanged. *)
Lemma organs_round_trip_witness :
  forallb well_formed awkward_organs = true /\
  exists text : jsstring,
    nth_error (values (body awkward)) 7 = Some (VStr text) /\
    JSON.parse text = Some (strings awkward_organs).
Proof.
  split; [reflexivity |].
  apply (organs_round_trip awkward awkward_organs); reflexivity.
Defined.

(** The organ-only donor with no [bloodGroup] property, on a fresh
    deployment: the call answers 201 and its one row has NULL for the blood
    group. *)
Lemma blood_group_persisted_null_witness :
  missing_or_empty (field organ_donor_no_group "bloodGroup") = true /\
  Forall (fun row => nth_error (Memory.columns row) 3 = Some VNull)
    (Memory.donors
       (world (snd (run (register organ_donor_no_group) Memory.boot)))) /\
  List.length
    (Memory.donors
       (world (snd (run (register organ_donor_no_group) Memory.boot))))
    = 1%nat.
Proof.
  split; [reflexivity |].
  destruct (blood_group_persisted_null organ_donor_no_group Memory.boot
              eq_refl eq_refl) as (_ & added & Hd & Hall & Hlen).
  rewrite Hd. change (Memory.donors (world Memory.boot)) with (@nil Memory.Row).
  cbn [app]. split; [exact Hall |].
  apply (Hlen {| status := 201;
                 json := VObj
                   [(lit "message", VStr (lit "Registration successful!"));
                    (lit "donorId", VNum 1)] |});
    reflexivity.
Defined.

(** C10, the claim as written fails: a valid request with no [organs]
    property, sent to a fresh deployment whose driver writes [undefined] as
    NULL, is answered 201 and its row is persisted. *)
Lemma register_without_organs_succeeds :
  passes_validation (body no_organs) = true /\
  field no_organs "organs" = VUndefined /\
  sent (trace (snd (run (register no_organs) Memory.boot))) =
    [{| status := 201;
        json := VObj [(lit "message", VStr (lit "Registration successful!"));
                      (lit "donorId", VNum 1)] |}] /\
  map Memory.id (Memory.donors (world (snd (run (register no_organs)
                                                 Memory.boot)))) = [1].
Proof. repeat split. Qed.

(** The same request on a fresh deployment and after the server is gone. *)
Lemma register_without_organs_witness :
  organsJson (body no_organs) = VUndefined /\
  status (last (sent (trace (snd (run (register no_organs) Memory.boot))))
               {| status := 0; json := VNull |}) = 201 /\
  status (last (sent (trace (snd (run (register no_organs) server_gone))))
               {| status := 0; json := VNull |}) = 500.
Proof.
  destruct (@register_without_organs _ Memory.memory_driver
              no_organs Memory.boot 1%nat _
              eq_refl eq_refl eq_refl) as (Hj & _ & _ & Hfresh).
  destruct (@register_without_organs _ Memory.memory_driver
              no_organs server_gone 1%nat _
              eq_refl eq_refl eq_refl) as (_ & _ & _ & Hgone).
  split; [exact Hj |]. rewrite Hfresh, Hgone. split; reflexivity.
Defined.

End Witnesses.

(** * Further properties of the handlers *)

Import Traffic.

Section PathFacts.
Context {W : Type} {D : Driver W}.

Lemma validation_passes (b : object) :
  required_missing b = false -> blood_group_missing b = false ->
  passes_validation b = true.
Proof. intros H1 H2. unfold passes_validation. rewrite H1, H2. reflexivity. Qed.

Lemma required_missing_false (b : object) :
  required_missing b = false <->
  truthy (get b (lit "fullName")) = true /\
  truthy (get b (lit "email")) = true /\
  truthy (get b (lit "phone")) = true /\
  truthy (get b (lit "city")) = true.
Proof.
  unfold required_missing.
  destruct (truthy (get b (lit "fullName"))),
           (truthy (get b (lit "email"))),
           (truthy (get b (lit "phone"))),
           (truthy (get b (lit "city"))); simpl;
    split; try tauto; try discriminate;
    intros (A & B & C & E); discriminate.
Qed.

Lemma required_missing_true (b : object) :
  required_missing b = true <->
  truthy (get b (lit "fullName")) = false \/
  truthy (get b (lit "email")) = false \/
  truthy (get b (lit "phone")) = false \/
  truthy (get b (lit "city")) = false.
Proof.
  unfold required_missing.
  destruct (truthy (get b (lit "fullName"))),
           (truthy (get b (lit "email"))),
           (truthy (get b (lit "phone"))),
           (truthy (get b (lit "city"))); simpl;
    split; try tauto; try discriminate;
    intros [A | [A | [A | A]]]; discriminate.
Qed.

(** In line 57 the test [bloodGroup === ''] adds nothing to [!bloodGroup]. *)
Lemma blood_group_missing_truthy (b : object) :
  blood_group_missing b =
    truthy (get b (lit "isBloodDonor"))
    && negb (truthy (get b (lit "bloodGroup"))).
Proof.
  unfold blood_group_missing. f_equal.
  destruct (get b (lit "bloodGroup")) as [| | x | n | s | items | props];
    simpl; try rewrite orb_false_r; try reflexivity.
  destruct s; reflexivity.
Qed.

Lemma last_sent_inj (tr : list Response) (x y : Response) :
  tr ++ [x] = tr ++ [y] -> x = y.
Proof. intros H. apply app_inv_head in H. injection H. auto. Qed.

End PathFacts.

(** The five ways a call of [register] can go. *)
Ltac register_paths req m :=
  let E1 := fresh "Erequired" in
  let E2 := fresh "Eblood" in
  let Ea := fresh "Eacquire" in
  let Eq := fresh "Equery" in
  destruct (required_missing (body req)) eqn:E1;
  [ rewrite ?(register_required_missing req m E1) in *
  | destruct (blood_group_missing (body req)) eqn:E2;
    [ rewrite ?(register_blood_group_missing req m E1 E2) in *
    | rewrite ?(register_valid req m (validation_passes _ E1 E2)) in *;
      destruct (pool_getConnection (world m)) as [[?e | ?c] ?w1] eqn:Ea;
      [ | destruct (connection_query _ query (values (body req)) _)
            as [[?e | ?r] ?w2] eqn:Eq ] ] ];
  cbn [fst snd world trace] in *.

Section ValidationExact.
Context {W : Type} {D : Driver W}.

(** X1. The required-fields answer is sent exactly when one of [fullName],
    [email], [phone], [city] is falsy: missing or empty, but also [null],
    [0] or [false].  No other path of the handler sends that response. *)
Theorem required_rule_exact (req : Request) (m : Machine W) :
  (truthy (field req "fullName") = false \/
   truthy (field req "email") = false \/
   truthy (field req "phone") = false \/
   truthy (field req "city") = false)
  <->
  sent (trace (snd (run (register req) m))) =
    sent (trace m) ++
    [{| status := 400;
        json := VObj [(lit "error",
          VStr (lit "Please fill out all required fields."))] |}].
Proof.
  unfold field. rewrite <- required_missing_true.
  register_paths req m; rewrite sent_app; cbn [sent];
    (split; [intros H; try discriminate H; try reflexivity
            | intros H; try reflexivity;
              apply last_sent_inj in H; try discriminate H]).
  - destruct (strict_eq_str (code e) (lit "ER_DUP_ENTRY")); discriminate H.
  - destruct (strict_eq_str (code e) (lit "ER_DUP_ENTRY")); discriminate H.
Qed.

End ValidationExact.

Section CounterFacts.

Lemma acquisitions_app (a b : list Event) :
  acquisitions (a ++ b) = (acquisitions a + acquisitions b)%nat.
Proof. unfold acquisitions. rewrite filter_app, length_app. reflexivity. Qed.

Lemma queries_app (a b : list Event) :
  queries (a ++ b) = (queries a + queries b)%nat.
Proof. unfold queries. rewrite filter_app, length_app. reflexivity. Qed.

Lemma releases_app (a b : list Event) :
  releases (a ++ b) = (releases a + releases b)%nat.
Proof. unfold releases. rewrite filter_app, length_app. reflexivity. Qed.

Lemma logged_app (a b : list Event) : logged (a ++ b) = logged a ++ logged b.
Proof.
  induction a as [| ev a IH]; simpl; [reflexivity |].
  destruct ev; simpl; rewrite IH; reflexivity.
Qed.

End CounterFacts.

Section AcceptanceExact.
Context {W : Type} {D : Driver W}.

Lemma blood_rule_condition (b : object) :
  (truthy (get b (lit "fullName")) = true /\
   truthy (get b (lit "email")) = true /\
   truthy (get b (lit "phone")) = true /\
   truthy (get b (lit "city")) = true /\
   truthy (get b (lit "isBloodDonor")) = true /\
   truthy (get b (lit "bloodGroup")) = false)
  <-> required_missing b = false /\ blood_group_missing b = true.
Proof.
  rewrite required_missing_false, blood_group_missing_truthy.
  rewrite andb_true_iff, negb_true_iff. tauto.
Qed.

Lemma acceptance_condition (b : object) :
  (truthy (get b (lit "fullName")) = true /\
   truthy (get b (lit "email")) = true /\
   truthy (get b (lit "phone")) = true /\
   truthy (get b (lit "city")) = true /\
   (truthy (get b (lit "isBloodDonor")) = false \/
    truthy (get b (lit "bloodGroup")) = true))
  <-> required_missing b = false /\ blood_group_missing b = false.
Proof.
  rewrite required_missing_false, blood_group_missing_truthy.
  rewrite andb_false_iff, negb_false_iff. tauto.
Qed.

(** X2. The blood-group answer is sent exactly when the four required
    fields are truthy, [isBloodDonor] is truthy (the boolean [true], but
    also a non-empty string or a non-zero number) and [bloodGroup] is falsy
    (missing or empty, but also [null], [0] or [false]). *)
Theorem blood_group_rule_exact (req : Request) (m : Machine W) :
  (truthy (field req "fullName") = true /\
   truthy (field req "email") = true /\
   truthy (field req "phone") = true /\
   truthy (field req "city") = true /\
   truthy (field req "isBloodDonor") = true /\
   truthy (field req "bloodGroup") = false)
  <->
  sent (trace (snd (run (register req) m))) =
    sent (trace m) ++
    [{| status := 400;
        json := VObj [(lit "error",
          VStr (lit "Blood group is required for blood donors."))] |}].
Proof.
  unfold field. rewrite blood_rule_condition.
  register_paths req m; rewrite sent_app; cbn [sent];
    (split; [intros [H1 H2]; try discriminate H1; try discriminate H2;
             try reflexivity
            | intros H; try (split; reflexivity);
              apply last_sent_inj in H; try discriminate H]).
  - destruct (strict_eq_str (code e) (lit "ER_DUP_ENTRY")); discriminate H.
  - destruct (strict_eq_str (code e) (lit "ER_DUP_ENTRY")); discriminate H.
Qed.

(** X3. A call goes to the pool exactly when the four required fields are
    truthy and either [isBloodDonor] is falsy or [bloodGroup] is truthy.
    Nothing else about the body is looked at: the fields need not be
    strings, and [isOrganDonor] and [organs] play no part. *)
Theorem register_acceptance_exact (req : Request) (m : Machine W) :
  (truthy (field req "fullName") = true /\
   truthy (field req "email") = true /\
   truthy (field req "phone") = true /\
   truthy (field req "city") = true /\
   (truthy (field req "isBloodDonor") = false \/
    truthy (field req "bloodGroup") = true))
  <->
  acquisitions (trace (snd (run (register req) m))) =
    S (acquisitions (trace m)).
Proof.
  unfold field. rewrite acceptance_condition.
  register_paths req m; rewrite acquisitions_app;
    unfold acquisitions at 2; cbn [filter is_acquire List.length];
    (split; [intros [H1 H2]; try discriminate H1; try discriminate H2; lia
            | intros H; try (split; reflexivity); lia]).
Qed.

End AcceptanceExact.

Section CallShape.
Context {W : Type} {D : Driver W}.

(** With an object for a body, a call ends fulfilled and sends exactly one
    response, of one of two shapes. *)
Lemma register_answers_once (req : Request) (m : Machine W) :
  fst (run (register req) m) = Fulfilled /\
  exists r : Response,
    sent (trace (snd (run (register req) m))) = sent (trace m) ++ [r] /\
    ((status r = 201 /\
      exists n : Z,
        json r = VObj [(lit "message", VStr (lit "Registration successful!"));
                       (lit "donorId", VNum n)])
     \/
     ((status r = 400 \/ status r = 409 \/ status r = 500) /\
      exists s : jsstring, json r = VObj [(lit "error", VStr s)] /\ s <> [])).
Proof.
  register_paths req m; (split; [reflexivity |]); rewrite sent_app;
    cbn [sent]; eexists; (split; [reflexivity |]).
  - right. split; [left; reflexivity |].
    eexists. split; [reflexivity | discriminate].
  - right. split; [left; reflexivity |].
    eexists. split; [reflexivity | discriminate].
  - right. destruct (strict_eq_str (code e) (lit "ER_DUP_ENTRY")).
    + split; [right; left; reflexivity |].
      eexists. split; [reflexivity | discriminate].
    + split; [right; right; reflexivity |].
      eexists. split; [reflexivity | discriminate].
  - right. destruct (strict_eq_str (code e) (lit "ER_DUP_ENTRY")).
    + split; [right; left; reflexivity |].
      eexists. split; [reflexivity | discriminate].
    + split; [right; right; reflexivity |].
      eexists. split; [reflexivity | discriminate].
  - left. split; [reflexivity |]. eexists. reflexivity.
Qed.

(** X5. What one call does to the pool is one of three things.  A request
    that fails validation makes no pool call.  A valid request whose
    [getConnection] rejects makes that one call and no other.  A valid
    request that obtains connection [c] makes exactly three calls, in this
    order: [getConnection], one query on [c] with the fixed SQL text and the
    eight parameters of the request, and the release of [c].  So there is
    never a query or a release without an acquisition, never a second
    query, and never a connection obtained and not released. *)
Theorem register_pool_protocol (req : Request) (m : Machine W) :
  exists new : list Event,
    trace (snd (run (register req) m)) = trace m ++ new /\
    ((passes_validation (body req) = false /\
      filter touches_pool new = [])
     \/
     (passes_validation (body req) = true /\
      exists (e : JsError) (w1 : W),
        pool_getConnection (world m) = (inl e, w1) /\
        filter touches_pool new = [GetConnection])
     \/
     (passes_validation (body req) = true /\
      exists (c : Conn) (w1 : W),
        pool_getConnection (world m) = (inr c, w1) /\
        filter touches_pool new =
          [GetConnection; Query c query (values (body req)); Release c])).
Proof.
  unfold passes_validation.
  register_paths req m; eexists; (split; [reflexivity |]);
    cbn [filter touches_pool negb andb].
  - left. split; reflexivity.
  - left. split; reflexivity.
  - right. left. split; [reflexivity |]. exists e, w1. split; reflexivity.
  - right. right. split; [reflexivity |]. exists c, w1. split; reflexivity.
  - right. right. split; [reflexivity |]. exists c, w1. split; reflexivity.
Qed.

(** X6. When [pool.getConnection] itself rejects with [e], no query is
    issued and nothing is released (there is no connection to release), the
    world is the one the failed attempt left, and the answer follows [e.code]
    like any other failure: 500 with the fixed message unless the code is
    ER_DUP_ENTRY. *)
Theorem register_acquisition_failure (req : Request) (m : Machine W)
  (e : JsError) (w1 : W) :
  passes_validation (body req) = true ->
  pool_getConnection (world m) = (inl e, w1) ->
  world (snd (run (register req) m)) = w1 /\
  queries (trace (snd (run (register req) m))) = queries (trace m) /\
  releases (trace (snd (run (register req) m))) = releases (trace m) /\
  (code e <> VStr (lit "ER_DUP_ENTRY") ->
   sent (trace (snd (run (register req) m))) =
     sent (trace m) ++
     [{| status := 500;
         json := VObj [(lit "error", VStr (lit
           "An error occurred during registration. Please try again."))] |}]).
Proof.
  intros Hv Ha. rewrite (register_valid req m Hv), Ha.
  cbn [snd world trace]. rewrite queries_app, releases_app, sent_app.
  split; [reflexivity |]. split; [cbn; lia |]. split; [cbn; lia |].
  intros Hcode. apply strict_eq_str_neq in Hcode. rewrite Hcode. reflexivity.
Qed.

(** X7. A 201 is sent only after a successful insert: if the response of a
    call has status 201, the request passed validation, a connection was
    obtained, the query on it succeeded, and [donorId] is the [insertId] of
    that very result. *)
Theorem register_created_only_after_insert (req : Request) (m : Machine W)
  (r : Response) :
  sent (trace (snd (run (register req) m))) = sent (trace m) ++ [r] ->
  status r = 201 ->
  passes_validation (body req) = true /\
  exists (c : Conn) (w1 w2 : W) (h : ResultSetHeader),
    pool_getConnection (world m) = (inr c, w1) /\
    connection_query c query (values (body req)) w1 = (inr h, w2) /\
    json r = VObj [(lit "message", VStr (lit "Registration successful!"));
                   (lit "donorId", VNum (insertId h))].
Proof.
  intros Hs Hst.
  register_paths req m; rewrite sent_app in Hs; cbn [sent] in Hs;
    apply last_sent_inj in Hs; subst r; cbn [status] in Hst;
    try discriminate Hst.
  - destruct (strict_eq_str (code e) (lit "ER_DUP_ENTRY")); discriminate Hst.
  - destruct (strict_eq_str (code e) (lit "ER_DUP_ENTRY")); discriminate Hst.
  - split; [apply validation_passes; assumption |].
    exists c, w1, w2, r0. repeat split; assumption.
Qed.

(** X8. [console.error] receives exactly what the driver threw, once: for a
    valid request, the rejection of [getConnection] or else that of the
    query; nothing when both succeed, and nothing for a request that fails
    validation. *)
Theorem register_logs_what_was_thrown (req : Request) (m : Machine W) :
  logged (trace (snd (run (register req) m))) =
    logged (trace m) ++
    (if passes_validation (body req)
     then match thrown (body req) (world m) with
          | Some e => [e]
          | None => []
          end
     else []).
Proof.
  unfold passes_validation, thrown.
  register_paths req m; rewrite logged_app; cbn [logged negb andb];
    try reflexivity.
Qed.

End CallShape.

Section Composition.
Context {W : Type} {D : Driver W}.

(** What a call does is the same from any trace: run it from the empty
    trace and put the events after those already there. *)
Lemma register_from_empty (req : Request) (m : Machine W) :
  run (register req) m =
    (fst (run (register req) {| world := world m; trace := [] |}),
     {| world :=
          world (snd (run (register req) {| world := world m; trace := [] |}));
        trace :=
          trace m ++
          trace (snd (run (register req) {| world := world m; trace := [] |}))
     |}).
Proof.
  destruct (required_missing (body req)) eqn:E1.
  - rewrite !register_required_missing by assumption. reflexivity.
  - destruct (blood_group_missing (body req)) eqn:E2.
    + rewrite !register_blood_group_missing by assumption. reflexivity.
    + rewrite !(register_valid _ _ (validation_passes _ E1 E2)).
      cbn [world trace].
      destruct (pool_getConnection (world m)) as [[e | c] w1];
        [reflexivity |].
      destruct (connection_query c query (values (body req)) w1)
        as [[e | r] w2]; reflexivity.
Qed.

(** X9. The handler keeps no state of its own between calls: from two
    machines with the same world behind the driver, the same request leaves
    the same world and adds the same events (the same response among them),
    whatever was served or logged before. *)
Theorem register_ignores_the_past (req : Request) (m1 m2 : Machine W) :
  world m1 = world m2 ->
  world (snd (run (register req) m1)) = world (snd (run (register req) m2)) /\
  exists new : list Event,
    trace (snd (run (register req) m1)) = trace m1 ++ new /\
    trace (snd (run (register req) m2)) = trace m2 ++ new.
Proof.
  intros Hw.
  rewrite (register_from_empty req m1), (register_from_empty req m2).
  cbn [snd world trace]. rewrite Hw. split; [reflexivity |].
  eexists. split; reflexivity.
Qed.



End Composition.

Section ParameterFacts.
Context {W : Type} {D : Driver W}.

Lemma blood_group_parameter_cases (b : object) :
  (get b (lit "bloodGroup") = VStr [] /\
   nth_error (values b) 3 = Some VNull) \/
  (get b (lit "bloodGroup") <> VStr [] /\
   nth_error (values b) 3 = Some (get b (lit "bloodGroup"))).
Proof.
  cbn [values nth_error]. unfold finalBloodGroup.
  destruct (strict_eq_str (get b (lit "bloodGroup")) []) eqn:E.
  - left. apply strict_eq_str_eq in E. split; [exact E | reflexivity].
  - right. split; [| reflexivity].
    intros H. apply strict_eq_str_eq in H. congruence.
Qed.

(** X11. Whatever the body, the parameter bound for [blood_group] is never
    the empty string; it is [null] exactly when [bloodGroup] is the empty
    string or [null]; and any [bloodGroup] other than the empty string is
    bound as it was submitted. *)
Theorem blood_group_never_empty (b : object) :
  nth_error (values b) 3 <> Some (VStr []) /\
  (nth_error (values b) 3 = Some VNull <->
   get b (lit "bloodGroup") = VStr [] \/ get b (lit "bloodGroup") = VNull) /\
  (get b (lit "bloodGroup") <> VStr [] ->
   nth_error (values b) 3 = Some (get b (lit "bloodGroup"))).
Proof.
  destruct (blood_group_parameter_cases b) as [[E P] | [N P]]; rewrite P.
  - split; [discriminate |]. split; [| congruence].
    split; [intros _; left; exact E | reflexivity].
  - split; [congruence |]. split; [| reflexivity].
    split.
    + intros H. right. congruence.
    + intros [H | H]; [contradiction | rewrite H; reflexivity].
Qed.

(** X12. For a blood donor whose request passes validation, the parameter
    bound for [blood_group] is the [bloodGroup] submitted, unchanged, and it
    is truthy (a string among them is non-empty). *)
Theorem blood_donor_group_kept (b : object) :
  passes_validation b = true ->
  truthy (get b (lit "isBloodDonor")) = true ->
  nth_error (values b) 3 = Some (get b (lit "bloodGroup")) /\
  truthy (get b (lit "bloodGroup")) = true.
Proof.
  intros Hv Hd. unfold passes_validation in Hv.
  apply andb_prop in Hv. destruct Hv as [_ Hb].
  apply negb_true_iff in Hb. rewrite blood_group_missing_truthy, Hd in Hb.
  cbn [andb] in Hb. apply negb_false_iff in Hb.
  split; [| exact Hb].
  destruct (blood_group_parameter_cases b) as [[E _] | [_ P]]; [| exact P].
  rewrite E in Hb. discriminate Hb.
Qed.

Lemma serialize_none (v : value) :
  JSON.serialize v = None <-> v = VUndefined.
Proof.
  destruct v as [| | [|] | n | s | items | props]; cbn [JSON.serialize];
    split; intros H; try reflexivity; discriminate H.
Qed.

(** X13. The parameter bound for [organs_to_donate] is [undefined] exactly
    when the body has no [organs].  Whenever [organs] is present, a list or
    not, the parameter is a string, so it never reaches the driver as
    [undefined] or [null]; in particular [organs: null] is bound as the
    four-character string 'null'. *)
Theorem organs_text_unless_missing (b : object) :
  (organsJson b = VUndefined <-> get b (lit "organs") = VUndefined) /\
  (get b (lit "organs") <> VUndefined ->
   exists t : jsstring, nth_error (values b) 7 = Some (VStr t)) /\
  (get b (lit "organs") = VNull ->
   nth_error (values b) 7 = Some (VStr (lit "null"))).
Proof.
  cbn [values nth_error]. unfold organsJson, JSON.stringify.
  destruct (JSON.serialize (get b (lit "organs"))) as [t |] eqn:E.
  - split; [| split].
    + split; [discriminate |]. intros H. apply serialize_none in H.
      congruence.
    + intros _. exists t. reflexivity.
    + intros H. rewrite H in E. cbn [JSON.serialize] in E.
      injection E as <-. reflexivity.
  - apply serialize_none in E. split; [| split].
    + split; [intros _; exact E | reflexivity].
    + intros N. contradiction.
    + intros H. congruence.
Qed.

Lemma map_VStr_inj (l1 l2 : list jsstring) :
  map VStr l1 = map VStr l2 -> l1 = l2.
Proof.
  revert l2. induction l1 as [| x l1 IH]; intros [| y l2] H;
    try discriminate H; [reflexivity |].
  cbn [map] in H. injection H as Hx Hl. f_equal; [exact Hx | apply IH, Hl].
Qed.

(** X14. The text stored for the organs determines them: two requests whose
    [organs] are lists of strings and whose stored texts are equal pledged
    the same organs in the same order. *)
Theorem organs_text_injective (b1 b2 : object) (l1 l2 : list jsstring) :
  forallb well_formed l1 = true ->
  forallb well_formed l2 = true ->
  get b1 (lit "organs") = strings l1 ->
  get b2 (lit "organs") = strings l2 ->
  nth_error (values b1) 7 = nth_error (values b2) 7 ->
  l1 = l2.
Proof.
  intros W1 W2 H1 H2 Heq.
  destruct (parse_serialized_strings l1 W1) as (t1 & S1 & P1).
  destruct (parse_serialized_strings l2 W2) as (t2 & S2 & P2).
  cbn [values nth_error] in Heq. unfold organsJson, JSON.stringify in Heq.
  rewrite H1, H2, S1, S2 in Heq. injection Heq as Ht. subst t2.
  rewrite P1 in P2. injection P2 as Hm. apply map_VStr_inj. exact Hm.
Qed.

(** X15. Every query a call issues is the fixed INSERT text, never text
    built from the request, and it is given the parameters of the request,
    one for each of the eight [?] placeholders of the text. *)
Theorem register_query_is_parameterized (req : Request) (m : Machine W) :
  exists new : list Event,
    trace (snd (run (register req) m)) = trace m ++ new /\
    forall (c : Conn) (sql : jsstring) (params : list value),
      In (Query c sql params) new ->
      sql = query /\
      params = values (body req) /\
      count_occ Z.eq_dec sql 63 = List.length params /\
      List.length params = 8%nat.
Proof.
  assert (Hq : count_occ Z.eq_dec query 63 = 8%nat)
    by (vm_compute; reflexivity).
  register_paths req m; eexists; (split; [reflexivity |]);
    intros c' sql params Hin; cbn [In] in Hin;
    repeat (destruct Hin as [Hin | Hin]; try discriminate Hin);
    try contradiction;
    injection Hin as Hc Hs Hp; subst sql params; rewrite Hq;
    repeat split.
Qed.

End ParameterFacts.

Section StartupFacts.
Import Startup.

Lemma env_get_string (env : Env) (name : jsstring) :
  env_get env name = VUndefined \/ exists s, env_get env name = VStr s.
Proof.
  unfold env_get. induction env as [| [k v] env IH]; cbn [map get fst snd].
  - left. reflexivity.
  - destruct (str_eqb k name); [right; exists v; reflexivity | exact IH].
Qed.

(** X16. The port is 3001 when the [PORT] variable is unset or empty, and
    otherwise the variable's text as it is (a string, '0' included): it is
    always either the number 3001 or a non-empty string. *)
Theorem port_defaults_to_3001 (env : Env) :
  (env_get env (lit "PORT") = VUndefined \/
   env_get env (lit "PORT") = VStr [] <-> PORT env = VNum 3001) /\
  (forall (c : Z) (s : jsstring),
     env_get env (lit "PORT") = VStr (c :: s) -> PORT env = VStr (c :: s)) /\
  (PORT env = VNum 3001 \/
   exists (c : Z) (s : jsstring), PORT env = VStr (c :: s)).
Proof.
  unfold PORT, or_else.
  destruct (env_get_string env (lit "PORT")) as [E | [[| c s] E]];
    rewrite E; cbn [truthy].
  - split; [split; auto |]. split; [discriminate | left; reflexivity].
  - split; [split; auto |]. split; [discriminate | left; reflexivity].
  - split.
    + split; [intros [H | H]; discriminate H | discriminate].
    + split; [intros c' s' H; exact H | right; exists c, s; reflexivity].
Qed.

End StartupFacts.

Section InboundFacts.
Import Inbound.
Context {W : Type} {D : Driver W}.

(** X4. How a call of the handler settles.  When [req.body] is [undefined]
    or [null], the destructuring of lines 40-49, which is outside the [try],
    throws: the promise is rejected, no response is sent and nothing else
    happens.  For any other body (an object, or a value such as an array,
    which has none of the eight fields) the call ends fulfilled and sends
    exactly one response: 201 with [message] and [donorId], or 400, 409 or
    500 with a body whose only property is a non-empty [error] string. *)
Theorem post_register_settles (req : RawRequest) (m : Machine W) :
  (raw_body req = VUndefined \/ raw_body req = VNull ->
   exists e : JsError, run (post_register req) m = (Rejected e, m)) /\
  (raw_body req <> VUndefined -> raw_body req <> VNull ->
   fst (run (post_register req) m) = Fulfilled /\
   exists r : Response,
     sent (trace (snd (run (post_register req) m))) = sent (trace m) ++ [r] /\
     ((status r = 201 /\
       exists v : value,
         json r = VObj [(lit "message", VStr (lit "Registration successful!"));
                        (lit "donorId", v)])
      \/
      ((status r = 400 \/ status r = 409 \/ status r = 500) /\
       exists s : jsstring,
         json r = VObj [(lit "error", VStr s)] /\ s <> []))).
Proof.
  unfold post_register. split.
  - intros [H | H]; rewrite H; cbn [destructure];
      exists type_error; destruct m; reflexivity.
  - intros N1 N2.
    assert (Hb : exists b : object, destructure (raw_body req) = inr b).
    { destruct (raw_body req); try contradiction; cbn [destructure];
        eexists; reflexivity. }
    destruct Hb as [b Hb]. rewrite Hb.
    destruct (register_answers_once {| body := b |} m)
      as (Hf & r & Hs & Hshape).
    split; [exact Hf |]. exists r. split; [exact Hs |].
    destruct Hshape as [[H201 [n Hj]] | Herr].
    + left. split; [exact H201 |]. exists (VNum n). exact Hj.
    + right. exact Herr.
Qed.

End InboundFacts.

(** * Further worked examples *)

Section EdgeWitnesses.
Import Scenario Edge Startup.

(** A [null] name is answered like a missing one. *)
Lemma required_rule_exact_witness :
  truthy (field null_name "fullName") = false /\
  sent (trace (snd (run (register null_name) Memory.boot))) =
    [{| status := 400;
        json := VObj [(lit "error",
          VStr (lit "Please fill out all required fields."))] |}].
Proof.
  split; [reflexivity |].
  apply (proj1 (@required_rule_exact _ Memory.memory_driver
                  null_name Memory.boot)).
  left. reflexivity.
Defined.

(** The string 'false' in [isBloodDonor] counts as a blood donor. *)
Lemma blood_group_rule_exact_witness :
  field string_flag "isBloodDonor" = VStr (lit "false") /\
  sent (trace (snd (run (register string_flag) Memory.boot))) =
    [{| status := 400;
        json := VObj [(lit "error",
          VStr (lit "Blood group is required for blood donors."))] |}].
Proof.
  split; [reflexivity |].
  apply (proj1 (@blood_group_rule_exact _ Memory.memory_driver
                  string_flag Memory.boot)).
  repeat split.
Defined.

(** A number, an array, a boolean and an object pass for the four fields. *)
Lemma register_acceptance_exact_witness :
  acquisitions (trace (snd (run (register typeless) Memory.boot))) = 1%nat.
Proof.
  apply (proj1 (@register_acceptance_exact _ Memory.memory_driver
                  typeless Memory.boot)).
  repeat split. left. reflexivity.
Defined.

(** Scenario A when the server cannot be reached. *)
Lemma register_acquisition_failure_witness :
  world (snd (run (register ana) unreachable)) = world unreachable /\
  releases (trace (snd (run (register ana) unreachable))) = 0%nat /\
  sent (trace (snd (run (register ana) unreachable))) =
    [{| status := 500;
        json := VObj [(lit "error", VStr (lit
          "An error occurred during registration. Please try again."))] |}].
Proof.
  destruct (@register_acquisition_failure _ Memory.memory_driver
              ana unreachable _ _ eq_refl eq_refl) as (Hw & _ & Hr & Hs).
  split; [exact Hw |]. split; [exact Hr |].
  apply Hs. intros E. vm_compute in E. discriminate E.
Defined.

(** The 201 of scenario A comes with its insert. *)
Lemma register_created_only_after_insert_witness :
  passes_validation (body ana) = true /\
  exists h : ResultSetHeader, insertId h = 1.
Proof.
  destruct (@register_created_only_after_insert _ Memory.memory_driver
              ana Memory.boot
              {| status := 201;
                 json := VObj
                   [(lit "message", VStr (lit "Registration successful!"));
                    (lit "donorId", VNum 1)] |}
              eq_refl eq_refl) as (Hv & c & w1 & w2 & h & _ & _ & Hj).
  split; [exact Hv |]. exists h. injection Hj as Hid. symmetry. exact Hid.
Defined.

(** Scenario A before and after the start-up line was logged. *)
Lemma register_ignores_the_past_witness :
  world Memory.boot = world started /\
  world (snd (run (register ana) Memory.boot)) =
    world (snd (run (register ana) started)).
Proof.
  split; [reflexivity |].
  apply (@register_ignores_the_past _ Memory.memory_driver
           ana Memory.boot started).
  reflexivity.
Defined.


(** Scenario A keeps its 'O+'. *)
Lemma blood_donor_group_kept_witness :
  nth_error (values (body ana)) 3 = Some (VStr (lit "O+")).
Proof.
  apply (blood_donor_group_kept (body ana)); reflexivity.
Defined.

(** [organs: null] is bound as the string 'null'. *)
Lemma organs_text_unless_missing_witness :
  get (body null_organs) (lit "organs") = VNull /\
  nth_error (values (body null_organs)) 7 = Some (VStr (lit "null")).
Proof.
  split; [reflexivity |].
  apply (proj2 (proj2 (organs_text_unless_missing (body null_organs)))).
  reflexivity.
Defined.

(** The two organ-only donors pledged the same organs. *)
Lemma organs_text_injective_witness :
  nth_error (values (body organ_donor)) 7 =
    nth_error (values (body organ_donor_no_group)) 7 /\
  [lit "kidney"; lit "liver"] = [lit "kidney"; lit "liver"].
Proof.
  split; [reflexivity |].
  apply (organs_text_injective (body organ_donor) (body organ_donor_no_group));
    reflexivity.
Defined.

(** No body: rejected, nothing sent.  An array for a body: one 400. *)
Lemma post_register_settles_witness :
  (exists e : JsError,
     run (Inbound.post_register Inbound.bodyless) Memory.boot
       = (Rejected e, Memory.boot)) /\
  fst (run (Inbound.post_register Inbound.array_body) Memory.boot)
    = Fulfilled.
Proof.
  destruct (@post_register_settles _ Memory.memory_driver
              Inbound.bodyless Memory.boot) as [Hthrow _].
  destruct (@post_register_settles _ Memory.memory_driver
              Inbound.array_body Memory.boot) as [_ Hsend].
  split.
  - apply Hthrow. left. reflexivity.
  - apply Hsend; discriminate.
Defined.

(** Unset, empty and '0'. *)
Lemma port_defaults_to_3001_witness :
  PORT port_unset = VNum 3001 /\
  PORT port_empty = VNum 3001 /\
  PORT port_zero = VStr (lit "0").
Proof.
  split; [| split].
  - apply (proj1 (port_defaults_to_3001 port_unset)). left. reflexivity.
  - apply (proj1 (port_defaults_to_3001 port_empty)). right. reflexivity.
  - apply (proj1 (proj2 (port_defaults_to_3001 port_zero))). reflexivity.
Defined.

End EdgeWitnesses.
